(** * go-scc: a typed client for the SAP Cloud Connector configuration API

    Shallow embedding of the three service facades of package [scc]
    (backup, common properties, high availability) and of the collaborator
    they call: the shared client with its three request builders and [Do].

    Conventions of the embedding
    - a Go pointer is an [option]: [None] is [nil];
    - a Go [error] is an [option error]: [None] is [nil];
    - a method of the shared client is a field of the record [Client]; it
      reads and changes a world state [W] (the network, the remote connector);
    - every call of a client method is written to a journal, in order, with its
      arguments and its results, so that a statement can speak of what an
      operation asked its collaborator to do;
    - the value a destination pointer refers to is passed to [Do] and comes
      back, updated, with its results. *)

From Stdlib Require Import String List ZArith Ascii Bool Lia DecimalString.
From Stdlib Require Import DecimalPos DecimalZ.
Import ListNotations.
Open Scope string_scope.
Open Scope Z_scope.

(** ** Values of the Go runtime and standard library *)

(** An error value, identified by the text its [Error] method returns. *)
Inductive error : Type :=
| errorString (s : string).

Definition errors_New (text : string) : error := errorString text.

Definition Error (e : error) : string :=
  match e with errorString s => s end.

(** [os.ErrInvalid] *)
Definition os_ErrInvalid : error := errors_New "invalid argument".

(** [strconv.Itoa]: the decimal rendering of an [int]. *)
Definition Itoa (i : Z) : string := NilZero.string_of_int (Z.to_int i).

(** [context.Context]; the operations only hand it on to [Do]. *)
Inductive Context : Type :=
| Background
| WithCancel (parent : Context)
| WithTimeout (parent : Context) (millis : Z).

(** [os.FileInfo], the two methods the code calls. *)
Record FileInfo : Type := mkFileInfo {
  IsDir : bool;
  Size : Z
}.

(** An open [os.File]: its name, what [fstat] answers for it, its content. *)
Record File : Type := mkFile {
  Name : string;
  fstat : FileInfo + error;
  data : string
}.

(** The method [Stat] of [os.File]; a nil receiver gives [os.ErrInvalid]. *)
Definition Stat (file : option File) : option FileInfo * option error :=
  match file with
  | None => (None, Some os_ErrInvalid)
  | Some f =>
      match fstat f with
      | inl info => (Some info, None)
      | inr e => (None, Some e)
      end
  end.

Definition IsPathSeparator (c : ascii) : bool := Ascii.eqb c "/"%char.

(** [filepath.Ext]: the suffix that starts at the last dot of the last path
    element, empty when that element has no dot.  [found] is the candidate
    met so far on a left-to-right scan. *)
Fixpoint Ext_scan (path : string) (found : string) : string :=
  match path with
  | EmptyString => found
  | String c rest =>
      if IsPathSeparator c then Ext_scan rest EmptyString
      else if Ascii.eqb c "."%char then Ext_scan rest path
      else Ext_scan rest found
  end.

Definition Ext (path : string) : string := Ext_scan path EmptyString.

(** ** The data model of the package *)

Record CommonProperties : Type := mkCommonProperties {
  Ha_Role : string;
  Description : string
}.

Record Version : Type := mkVersion {
  Version_Version : string
}.

Record MasterConfiguration : Type := mkMasterConfiguration {
  HAEnabled : bool;
  AllowedShadowHost : string
}.

Record MasterState : Type := mkMasterState {
  MasterState_State : string;
  ShadowHost : string
}.

Record ShadowConfiguration : Type := mkShadowConfiguration {
  MasterHost : string;
  MasterPort : string;
  CheckIntervalInSeconds : Z;
  TakeoverDelayInSeconds : Z;
  OwnHost : string;
  ConnectTimeoutInMillis : Z;
  RequestTimeoutInMillis : Z;
  Links_Self_Href : string;
  Links_State_Href : string
}.

Record ShadowState : Type := mkShadowState {
  ShadowState_State : string;
  OwnHosts : string;
  StateMessage : string;
  MasterVersions : string
}.

(** The zero values [new(T)] allocates. *)
Definition zero_CommonProperties : CommonProperties := mkCommonProperties "" "".
Definition zero_Version : Version := mkVersion "".
Definition zero_MasterConfiguration : MasterConfiguration :=
  mkMasterConfiguration false "".
Definition zero_MasterState : MasterState := mkMasterState "" "".
Definition zero_ShadowConfiguration : ShadowConfiguration :=
  mkShadowConfiguration "" "" 0 0 "" 0 0 "" "".
Definition zero_ShadowState : ShadowState := mkShadowState "" "" "" "".

(** ** The collaborator: requests, responses, the shared client *)

(** The [body interface{}] argument of the request builders: one constructor
    for each Go type the package passes. *)
Inductive Body : Type :=
| body_nil
| body_string (s : string)
| body_Password (Password : string)
| body_Description (Description : string)
| body_MasterConfiguration (c : MasterConfiguration)
| body_Op (Op : string)
| body_ShadowConfiguration (c : ShadowConfiguration)
| body_OpUserPassword (Op User Password : string).

(** Which instance a request is routed to. *)
Inductive Target : Type := to_default | to_shadow.

(** [http.Request], as far as the package and its collaborator fill it. *)
Record Request : Type := mkRequest {
  Method : string;
  URL : string;
  Route : Target;
  ContentType : string;
  ContentLength : Z;
  Payload : string
}.

(** [scc.Response]: the status code and the bytes of the body. *)
Record Response : Type := mkResponse {
  StatusCode : Z;
  ResponseBody : string
}.

(** The [v interface{}] argument of [Do]: what the pointer refers to. *)
Inductive DestKind : Type :=
| into_nil
| into_Buffer
| into_File
| into_CommonProperties
| into_Version
| into_MasterConfiguration
| into_MasterState
| into_ShadowConfiguration
| into_ShadowState.

Definition dest (k : DestKind) : Type :=
  match k with
  | into_nil => unit
  | into_Buffer => string
  | into_File => option File
  | into_CommonProperties => CommonProperties
  | into_Version => Version
  | into_MasterConfiguration => MasterConfiguration
  | into_MasterState => MasterState
  | into_ShadowConfiguration => ShadowConfiguration
  | into_ShadowState => ShadowState
  end.

(** The shared client the three services hold in [s.client]. *)
Record Client (W : Type) : Type := mkClient {
  NewRequest :
    string -> string -> Body -> W -> (option Request * option error) * W;
  NewShadowRequest :
    string -> string -> Body -> W -> (option Request * option error) * W;
  NewUploadRequest :
    string -> string -> option File -> Z -> string -> W ->
    (option Request * option error) * W;
  Do :
    forall k : DestKind, Context -> option Request -> dest k -> W ->
    (option Response * option error * dest k) * W
}.

Arguments NewRequest {W} _ _ _ _ _.
Arguments NewShadowRequest {W} _ _ _ _ _.
Arguments NewUploadRequest {W} _ _ _ _ _ _ _.
Arguments Do {W} _ _ _ _ _ _.

(** One journal entry for each call of a client method. *)
Inductive Event : Type :=
| called_NewRequest (method urlStr : string) (body : Body)
    (req : option Request) (err : option error)
| called_NewShadowRequest (method urlStr : string) (body : Body)
    (req : option Request) (err : option error)
| called_NewUploadRequest (method urlStr : string) (reader : option File)
    (size : Z) (mediaType : string)
    (req : option Request) (err : option error)
| called_Do (ctx : Context) (req : option Request) (v : DestKind)
    (resp : option Response) (err : option error).

(** ** The monad of the operations *)

(** A Go function returns its results or panics (a nil dereference). *)
Inductive Outcome (A : Type) : Type :=
| Returns (a : A)
| Panics.

Arguments Returns {A} a.
Arguments Panics {A}.

Record Session (W : Type) : Type := mkSession {
  world : W;
  journal : list Event
}.

Arguments mkSession {W} _ _.
Arguments world {W} _.
Arguments journal {W} _.

Definition M (W A : Type) : Type := Session W -> Outcome A * Session W.

Definition ret {W A : Type} (a : A) : M W A := fun s => (Returns a, s).

Definition bind {W A B : Type} (m : M W A) (f : A -> M W B) : M W B :=
  fun s =>
    match m s with
    | (Returns a, s') => f a s'
    | (Panics, s') => (Panics, s')
    end.

Definition panic {W A : Type} : M W A := fun s => (Panics, s).

Declare Scope go_scope.
Delimit Scope go_scope with go.
Notation "x <- m ;; k" := (bind m (fun x => k))
  (at level 61, m at next level, right associativity) : go_scope.
Notation "' pat <- m ;; k" := (bind m (fun x => match x with pat => k end))
  (at level 61, pat pattern, m at next level, right associativity) : go_scope.

(** Reading a field through a pointer: nil panics. *)
Definition deref {W A : Type} (p : option A) : M W A :=
  match p with
  | Some a => ret a
  | None => panic
  end.

(** An operation started on a world, with an empty journal. *)
Definition run {W A : Type} (m : M W A) (w : W) : Outcome A * Session W :=
  m (mkSession w []).

(** ** The operations of the package *)

Section Services.

Variable W : Type.

(** [s.client] *)
Variable client : Client W.

(** [mime.TypeByExtension]: the table is the host system's. *)
Variable TypeByExtension : string -> string.

Local Open Scope go_scope.

(** The four client methods, each call journalled. *)

Definition client_NewRequest (method urlStr : string) (body : Body)
  : M W (option Request * option error) :=
  fun s =>
    let '((req, err), w) := NewRequest client method urlStr body (world s) in
    (Returns (req, err),
     mkSession w
       (journal s ++ [called_NewRequest method urlStr body req err])).

Definition client_NewShadowRequest (method urlStr : string) (body : Body)
  : M W (option Request * option error) :=
  fun s =>
    let '((req, err), w) :=
      NewShadowRequest client method urlStr body (world s) in
    (Returns (req, err),
     mkSession w
       (journal s ++ [called_NewShadowRequest method urlStr body req err])).

Definition client_NewUploadRequest (method urlStr : string)
    (reader : option File) (size : Z) (mediaType : string)
  : M W (option Request * option error) :=
  fun s =>
    let '((req, err), w) :=
      NewUploadRequest client method urlStr reader size mediaType (world s) in
    (Returns (req, err),
     mkSession w
       (journal s ++
        [called_NewUploadRequest method urlStr reader size mediaType
           req err])).

Definition client_Do (ctx : Context) (req : option Request)
    (k : DestKind) (v : dest k)
  : M W (option Response * option error * dest k) :=
  fun s =>
    let '((resp, err, v'), w) := Do client k ctx req v (world s) in
    (Returns (resp, err, v'),
     mkSession w (journal s ++ [called_Do ctx req k resp err])).

(** *** Backup service *)

(** The first component of the result is [*file] after the call: [Do]
    writes the archive through the handle. *)
Definition CreateBackup (ctx : Context) (password : string)
    (file : option File)
  : M W (option File * (option Response * option error)) :=
  '(req, err) <-
    client_NewRequest "POST" "api/v1/configuration/backup"
      (body_Password password) ;;
  match err with
  | Some _ => ret (file, (None, err))
  | None =>
      '(resp, err, file') <- client_Do ctx req into_File file ;;
      match err with
      | Some _ => ret (file', (resp, err))
      | None => ret (file', (resp, None))
      end
  end.

Definition RestoreBackup (ctx : Context) (password : string)
    (file : option File)
  : M W (option Response * option error) :=
  let '(stat, err) := Stat file in
  match err with
  | Some _ => ret (None, err)
  | None =>
      info <- deref stat ;;
      if IsDir info then
        ret (None,
             Some (errors_New "the asset to upload can't be a directory"))
      else
        f <- deref file ;;
        let mediaType := TypeByExtension (Ext (Name f)) in
        '(req, err) <-
          client_NewUploadRequest "PUT" "api/v1/configuration/backup"
            file (Size info) mediaType ;;
        match err with
        | Some _ => ret (None, err)
        | None =>
            '(resp, err, _) <- client_Do ctx req into_nil tt ;;
            match err with
            | Some _ => ret (resp, err)
            | None =>
                r <- deref resp ;;
                if negb (StatusCode r =? 204) then
                  ret (resp,
                       Some (errors_New
                               ("backup restore failed with status code "
                                ++ Itoa (StatusCode r))))
                else ret (resp, None)
            end
        end
  end.

(** *** Common properties service *)

Definition GetCommonProperties (ctx : Context)
  : M W (option CommonProperties * option Response * option error) :=
  '(req, err) <-
    client_NewRequest "GET" "api/v1/configuration/connector" body_nil ;;
  match err with
  | Some _ => ret (None, None, err)
  | None =>
      '(resp, err, commonProperties) <-
        client_Do ctx req into_CommonProperties zero_CommonProperties ;;
      match err with
      | Some _ => ret (None, resp, err)
      | None => ret (Some commonProperties, resp, None)
      end
  end.

Definition GetVersion (ctx : Context)
  : M W (option Version * option Response * option error) :=
  '(req, err) <-
    client_NewRequest "GET" "api/v1/connector/version" body_nil ;;
  match err with
  | Some _ => ret (None, None, err)
  | None =>
      '(resp, err, version) <-
        client_Do ctx req into_Version zero_Version ;;
      match err with
      | Some _ => ret (None, resp, err)
      | None => ret (Some version, resp, None)
      end
  end.

Definition SetDescription (ctx : Context) (description : string)
  : M W (option CommonProperties * option Response * option error) :=
  '(req, err) <-
    client_NewRequest "PUT" "api/v1/configuration/connector"
      (body_Description description) ;;
  match err with
  | Some _ => ret (None, None, err)
  | None =>
      '(resp, err, commonProperties) <-
        client_Do ctx req into_CommonProperties zero_CommonProperties ;;
      match err with
      | Some _ => ret (None, resp, err)
      | None => ret (Some commonProperties, resp, None)
      end
  end.

(** *** High availability service *)

Definition GetHASettings (ctx : Context)
  : M W (string * option Response * option error) :=
  '(req, err) <-
    client_NewRequest "GET" "api/v1/configuration/connector/haRole"
      body_nil ;;
  match err with
  | Some _ => ret ("", None, err)
  | None =>
      '(resp, err, b) <- client_Do ctx req into_Buffer "" ;;
      match err with
      | Some _ => ret ("", resp, err)
      | None => ret (b, resp, None)
      end
  end.

Definition SetHASettings (ctx : Context) (role : string)
  : M W (option Response * option error) :=
  '(req, err) <-
    client_NewRequest "POST" "api/v1/configuration/connector/haRole"
      (body_string role) ;;
  match err with
  | Some _ => ret (None, err)
  | None =>
      '(resp, err, _) <- client_Do ctx req into_nil tt ;;
      match err with
      | Some _ => ret (resp, err)
      | None => ret (resp, None)
      end
  end.

Definition GetMasterConfiguration (ctx : Context)
  : M W (option MasterConfiguration * option Response * option error) :=
  '(req, err) <-
    client_NewRequest "GET"
      "api/v1/configuration/connector/ha/master/config" body_nil ;;
  match err with
  | Some _ => ret (None, None, err)
  | None =>
      '(resp, err, masterConfig) <-
        client_Do ctx req into_MasterConfiguration
          zero_MasterConfiguration ;;
      match err with
      | Some _ => ret (None, resp, err)
      | None => ret (Some masterConfig, resp, None)
      end
  end.

Definition SetMasterConfiguration (ctx : Context) (haEnabled : bool)
    (allowedShadowHost : string)
  : M W (option MasterConfiguration * option Response * option error) :=
  '(req, err) <-
    client_NewRequest "PUT"
      "api/v1/configuration/connector/ha/master/config"
      (body_MasterConfiguration
         {| HAEnabled := haEnabled;
            AllowedShadowHost := allowedShadowHost |}) ;;
  match err with
  | Some _ => ret (None, None, err)
  | None =>
      '(resp, err, masterConfig) <-
        client_Do ctx req into_MasterConfiguration
          zero_MasterConfiguration ;;
      match err with
      | Some _ => ret (None, resp, err)
      | None => ret (Some masterConfig, resp, None)
      end
  end.

Definition GetMasterState (ctx : Context)
  : M W (option MasterState * option Response * option error) :=
  '(req, err) <-
    client_NewRequest "GET"
      "api/v1/configuration/connector/ha/master/state" body_nil ;;
  match err with
  | Some _ => ret (None, None, err)
  | None =>
      '(resp, err, masterState) <-
        client_Do ctx req into_MasterState zero_MasterState ;;
      match err with
      | Some _ => ret (None, resp, err)
      | None => ret (Some masterState, resp, None)
      end
  end.

Definition SetMasterState (ctx : Context) (op : string)
  : M W (option MasterState * option Response * option error) :=
  '(req, err) <-
    client_NewRequest "POST"
      "api/v1/configuration/connector/ha/master/state" (body_Op op) ;;
  match err with
  | Some _ => ret (None, None, err)
  | None =>
      '(resp, err, masterState) <-
        client_Do ctx req into_MasterState zero_MasterState ;;
      match err with
      | Some _ => ret (None, resp, err)
      | None => ret (Some masterState, resp, None)
      end
  end.

Definition ResetMaster (ctx : Context)
  : M W (option Response * option error) :=
  '(req, err) <-
    client_NewRequest "DELETE"
      "api/v1/configuration/connector/ha/master/state" body_nil ;;
  match err with
  | Some _ => ret (None, err)
  | None =>
      '(resp, err, _) <- client_Do ctx req into_nil tt ;;
      match err with
      | Some _ => ret (resp, err)
      | None =>
          r <- deref resp ;;
          if negb (StatusCode r =? 204) then
            ret (resp,
                 Some (errors_New
                         ("master reset failed with status code "
                          ++ Itoa (StatusCode r))))
          else ret (resp, None)
      end
  end.

Definition GetShadowConfiguration (ctx : Context)
  : M W (option ShadowConfiguration * option Response * option error) :=
  '(req, err) <-
    client_NewShadowRequest "GET"
      "api/v1/configuration/connector/ha/shadow/config" body_nil ;;
  match err with
  | Some _ => ret (None, None, err)
  | None =>
      '(resp, err, shadowConfig) <-
        client_Do ctx req into_ShadowConfiguration
          zero_ShadowConfiguration ;;
      match err with
      | Some _ => ret (None, resp, err)
      | None => ret (Some shadowConfig, resp, None)
      end
  end.

Definition SetShadowConfiguration (ctx : Context)
    (masterHost masterPort ownHost : string)
    (checkIntervalInSeconds takeoverDelayInSeconds
     connectTimeoutInMillis requestTimeoutInMillis : Z)
  : M W (option ShadowConfiguration * option Response * option error) :=
  '(req, err) <-
    client_NewShadowRequest "PUT"
      "api/v1/configuration/connector/ha/shadow/config"
      (body_ShadowConfiguration
         {| MasterHost := masterHost;
            MasterPort := masterPort;
            CheckIntervalInSeconds := checkIntervalInSeconds;
            TakeoverDelayInSeconds := takeoverDelayInSeconds;
            OwnHost := ownHost;
            ConnectTimeoutInMillis := connectTimeoutInMillis;
            RequestTimeoutInMillis := requestTimeoutInMillis;
            Links_Self_Href := "";
            Links_State_Href := "" |}) ;;
  match err with
  | Some _ => ret (None, None, err)
  | None =>
      '(resp, err, shadowConfigResp) <-
        client_Do ctx req into_ShadowConfiguration
          zero_ShadowConfiguration ;;
      match err with
      | Some _ => ret (None, resp, err)
      | None => ret (Some shadowConfigResp, resp, None)
      end
  end.

Definition GetShawodState (ctx : Context) (description : string)
  : M W (option ShadowState * option Response * option error) :=
  '(req, err) <-
    client_NewShadowRequest "GET"
      "api/v1/configuration/connector/ha/shadow/state" body_nil ;;
  match err with
  | Some _ => ret (None, None, err)
  | None =>
      '(resp, err, shadowState) <-
        client_Do ctx req into_ShadowState zero_ShadowState ;;
      match err with
      | Some _ => ret (None, resp, err)
      | None => ret (Some shadowState, resp, None)
      end
  end.

Definition ChangeShadowState (ctx : Context) (op user password : string)
  : M W (option Response * option error) :=
  '(req, err) <-
    client_NewShadowRequest "POST"
      "api/v1/configuration/connector/ha/shadow/state"
      (body_OpUserPassword op user password) ;;
  match err with
  | Some _ => ret (None, err)
  | None =>
      '(resp, err, _) <- client_Do ctx req into_nil tt ;;
      match err with
      | Some _ => ret (resp, err)
      | None =>
          r <- deref resp ;;
          if negb (StatusCode r =? 204) then
            ret (resp,
                 Some (errors_New
                         ("shadow reset failed with status code "
                          ++ Itoa (StatusCode r))))
          else ret (resp, None)
      end
  end.

Definition ResetShadow (ctx : Context)
  : M W (option Response * option error) :=
  '(req, err) <-
    client_NewShadowRequest "DELETE"
      "api/v1/configuration/connector/ha/shadow/state" body_nil ;;
  match err with
  | Some _ => ret (None, err)
  | None =>
      '(resp, err, _) <- client_Do ctx req into_nil tt ;;
      match err with
      | Some _ => ret (resp, err)
      | None =>
          r <- deref resp ;;
          if negb (StatusCode r =? 204) then
            ret (resp,
                 Some (errors_New
                         ("shadow reset failed with status code "
                          ++ Itoa (StatusCode r))))
          else ret (resp, None)
      end
  end.

End Services.

Arguments CreateBackup {W} client ctx password file _.
Arguments RestoreBackup {W} client TypeByExtension ctx password file _.
Arguments GetCommonProperties {W} client ctx _.
Arguments GetVersion {W} client ctx _.
Arguments SetDescription {W} client ctx description _.
Arguments GetHASettings {W} client ctx _.
Arguments SetHASettings {W} client ctx role _.
Arguments GetMasterConfiguration {W} client ctx _.
Arguments SetMasterConfiguration {W} client ctx haEnabled allowedShadowHost _.
Arguments GetMasterState {W} client ctx _.
Arguments SetMasterState {W} client ctx op _.
Arguments ResetMaster {W} client ctx _.
Arguments GetShadowConfiguration {W} client ctx _.
Arguments SetShadowConfiguration {W} client ctx masterHost masterPort ownHost
  checkIntervalInSeconds takeoverDelayInSeconds connectTimeoutInMillis
  requestTimeoutInMillis _.
Arguments GetShawodState {W} client ctx description _.
Arguments ChangeShadowState {W} client ctx op user password _.
Arguments ResetShadow {W} client ctx _.

(** ** One view of the seventeen operations

    The operations have three result shapes.  [perform] runs any of them and
    files the results in one record, so that a property of all the operations
    is one statement. *)

Inductive Operation : Type :=
| op_CreateBackup (password : string) (file : option File)
| op_RestoreBackup (password : string) (file : option File)
| op_GetCommonProperties
| op_GetVersion
| op_SetDescription (description : string)
| op_GetHASettings
| op_SetHASettings (role : string)
| op_GetMasterConfiguration
| op_SetMasterConfiguration (haEnabled : bool) (allowedShadowHost : string)
| op_GetMasterState
| op_SetMasterState (op : string)
| op_ResetMaster
| op_GetShadowConfiguration
| op_SetShadowConfiguration (masterHost masterPort ownHost : string)
    (checkIntervalInSeconds takeoverDelayInSeconds
     connectTimeoutInMillis requestTimeoutInMillis : Z)
| op_GetShawodState (description : string)
| op_ChangeShadowState (op user password : string)
| op_ResetShadow.

(** The first result of an operation that has three. *)
Inductive Value : Type :=
| no_value
| the_role (s : string)
| the_CommonProperties (p : option CommonProperties)
| the_Version (p : option Version)
| the_MasterConfiguration (p : option MasterConfiguration)
| the_MasterState (p : option MasterState)
| the_ShadowConfiguration (p : option ShadowConfiguration)
| the_ShadowState (p : option ShadowState).

Record Reply : Type := mkReply {
  value : Value;
  response : option Response;
  failure : option error
}.

Definition fmap {W A B : Type} (f : A -> B) (m : M W A) : M W B :=
  bind m (fun a => ret (f a)).

Definition reply2 (r : option Response * option error) : Reply :=
  mkReply no_value (fst r) (snd r).

Definition reply3 {A : Type} (wrap : A -> Value)
    (r : A * option Response * option error) : Reply :=
  mkReply (wrap (fst (fst r))) (snd (fst r)) (snd r).

Definition perform {W : Type} (client : Client W)
    (TypeByExtension : string -> string) (ctx : Context) (o : Operation)
  : M W Reply :=
  match o with
  | op_CreateBackup password file =>
      fmap (fun r => reply2 (snd r)) (CreateBackup client ctx password file)
  | op_RestoreBackup password file =>
      fmap reply2 (RestoreBackup client TypeByExtension ctx password file)
  | op_GetCommonProperties =>
      fmap (reply3 the_CommonProperties) (GetCommonProperties client ctx)
  | op_GetVersion =>
      fmap (reply3 the_Version) (GetVersion client ctx)
  | op_SetDescription description =>
      fmap (reply3 the_CommonProperties)
        (SetDescription client ctx description)
  | op_GetHASettings =>
      fmap (reply3 the_role) (GetHASettings client ctx)
  | op_SetHASettings role =>
      fmap reply2 (SetHASettings client ctx role)
  | op_GetMasterConfiguration =>
      fmap (reply3 the_MasterConfiguration)
        (GetMasterConfiguration client ctx)
  | op_SetMasterConfiguration haEnabled allowedShadowHost =>
      fmap (reply3 the_MasterConfiguration)
        (SetMasterConfiguration client ctx haEnabled allowedShadowHost)
  | op_GetMasterState =>
      fmap (reply3 the_MasterState) (GetMasterState client ctx)
  | op_SetMasterState op =>
      fmap (reply3 the_MasterState) (SetMasterState client ctx op)
  | op_ResetMaster =>
      fmap reply2 (ResetMaster client ctx)
  | op_GetShadowConfiguration =>
      fmap (reply3 the_ShadowConfiguration)
        (GetShadowConfiguration client ctx)
  | op_SetShadowConfiguration mh mp oh ci td ct rt =>
      fmap (reply3 the_ShadowConfiguration)
        (SetShadowConfiguration client ctx mh mp oh ci td ct rt)
  | op_GetShawodState description =>
      fmap (reply3 the_ShadowState) (GetShawodState client ctx description)
  | op_ChangeShadowState op user password =>
      fmap reply2 (ChangeShadowState client ctx op user password)
  | op_ResetShadow =>
      fmap reply2 (ResetShadow client ctx)
  end.

(** The operations that check the status code against 204. *)
Definition mandates_204 (o : Operation) : bool :=
  match o with
  | op_RestoreBackup _ _ | op_ResetMaster
  | op_ChangeShadowState _ _ _ | op_ResetShadow => true
  | _ => false
  end.

(** The operations on the shadow instance. *)
Definition shadow_side (o : Operation) : bool :=
  match o with
  | op_GetShadowConfiguration | op_SetShadowConfiguration _ _ _ _ _ _ _
  | op_GetShawodState _ | op_ChangeShadowState _ _ _ | op_ResetShadow => true
  | _ => false
  end.

(** A nil first result; the role, a string, has the empty string for it. *)
Definition nil_value (v : Value) : Prop :=
  match v with
  | no_value => True
  | the_role s => s = ""%string
  | the_CommonProperties p => p = None
  | the_Version p => p = None
  | the_MasterConfiguration p => p = None
  | the_MasterState p => p = None
  | the_ShadowConfiguration p => p = None
  | the_ShadowState p => p = None
  end.

(** ** What a journal says *)

(** A request builder was called and returned the error [e]. *)
Definition builder_failed (e : error) (ev : Event) : Prop :=
  match ev with
  | called_NewRequest _ _ _ _ (Some e')
  | called_NewShadowRequest _ _ _ _ (Some e')
  | called_NewUploadRequest _ _ _ _ _ _ (Some e') => e' = e
  | _ => False
  end.

(** [Do] was called and returned the response [r] and a nil error. *)
Definition executed (r : Response) (ev : Event) : Prop :=
  match ev with
  | called_Do _ _ _ (Some r') None => r' = r
  | _ => False
  end.

Definition is_Do (ev : Event) : bool :=
  match ev with
  | called_Do _ _ _ _ _ => true
  | _ => false
  end.

Definition is_NewRequest (ev : Event) : bool :=
  match ev with
  | called_NewRequest _ _ _ _ _ => true
  | _ => false
  end.

Definition is_NewShadowRequest (ev : Event) : bool :=
  match ev with
  | called_NewShadowRequest _ _ _ _ _ => true
  | _ => false
  end.

Definition is_NewUploadRequest (ev : Event) : bool :=
  match ev with
  | called_NewUploadRequest _ _ _ _ _ _ _ => true
  | _ => false
  end.

Definition is_builder (ev : Event) : bool :=
  is_NewRequest ev || is_NewShadowRequest ev || is_NewUploadRequest ev.

(** The journal of a request built by the shadow builder: that call first,
    and after it nothing, when it failed, or one [Do] of the very request it
    returned. *)
Definition shadow_built (ctx : Context) (j : list Event) : Prop :=
  exists method urlStr body req err,
    (err <> None /\
     j = [called_NewShadowRequest method urlStr body req err]) \/
    (err = None /\
     exists k resp err',
       j = [called_NewShadowRequest method urlStr body req None;
            called_Do ctx req k resp err']).

(** [s] has [sub] as a substring. *)
Definition Contains (s sub : string) : Prop :=
  exists pre post : string, s = (pre ++ sub ++ post)%string.

(** ** JSON documents and the struct tags of the package *)

#[local] Unset Elimination Schemes.
Inductive JValue : Type :=
| JNull
| JBool (b : bool)
| JNumber (n : Z)
| JString (s : string)
| JArray (items : list JValue)
| JObject (fields : list (string * JValue)).
#[local] Set Elimination Schemes.

(** The document [encoding/json] writes for each body type, field by field
    in declaration order under the name of its [json] tag.  [omitempty] on
    the struct-typed field [Links] omits nothing. *)
Definition json_of_MasterConfiguration (c : MasterConfiguration) : JValue :=
  JObject [("haEnabled", JBool (HAEnabled c));
           ("allowedShadowHost", JString (AllowedShadowHost c))].

Definition json_of_ShadowConfiguration (c : ShadowConfiguration) : JValue :=
  JObject [("masterHost", JString (MasterHost c));
           ("masterPort", JString (MasterPort c));
           ("checkIntervalInSeconds", JNumber (CheckIntervalInSeconds c));
           ("takeoverDelayInSeconds", JNumber (TakeoverDelayInSeconds c));
           ("ownHost", JString (OwnHost c));
           ("connectTimeoutInMillis", JNumber (ConnectTimeoutInMillis c));
           ("requestTimeoutInMillis", JNumber (RequestTimeoutInMillis c));
           ("_links",
            JObject [("self", JObject [("href", JString (Links_Self_Href c))]);
                     ("state",
                      JObject [("href", JString (Links_State_Href c))])])].

Definition json_of_CommonProperties (c : CommonProperties) : JValue :=
  JObject [("ha", JObject [("role", JString (Ha_Role c))]);
           ("description", JString (Description c))].

Definition json_of_Body (body : Body) : option JValue :=
  match body with
  | body_nil => None
  | body_string s => Some (JString s)
  | body_Password p => Some (JObject [("password", JString p)])
  | body_Description d => Some (JObject [("description", JString d)])
  | body_MasterConfiguration c => Some (json_of_MasterConfiguration c)
  | body_Op op => Some (JObject [("op", JString op)])
  | body_ShadowConfiguration c => Some (json_of_ShadowConfiguration c)
  | body_OpUserPassword op user password =>
      Some (JObject [("op", JString op);
                     ("user", JString user);
                     ("password", JString password)])
  end.

(** *** Decoding a document into a struct

    As [encoding/json] does: the keys of an object are taken in document
    order; a key that matches a tag, letter case ignored, sets that field; a
    key that matches none is skipped; [null] changes nothing; a value of the
    wrong kind leaves the field as it was and the first such error is
    reported when the whole document has been read. *)

Definition lower (c : ascii) : ascii :=
  let n := nat_of_ascii c in
  if (Nat.leb 65 n && Nat.leb n 90)%bool then ascii_of_nat (n + 32) else c.

Fixpoint EqualFold (a b : string) : bool :=
  match a, b with
  | EmptyString, EmptyString => true
  | String x a', String y b' =>
      (Ascii.eqb (lower x) (lower y) && EqualFold a' b')%bool
  | _, _ => false
  end.

Definition type_error : error :=
  errors_New "json: cannot unmarshal value into Go struct field".

Definition syntax_error : error :=
  errors_New "invalid character in JSON input".

Definition first_error (a b : option error) : option error :=
  match a with
  | Some _ => a
  | None => b
  end.

Definition set_string (v : JValue) (old : string) : string * option error :=
  match v with
  | JString s => (s, None)
  | JNull => (old, None)
  | _ => (old, Some type_error)
  end.

Definition set_bool (v : JValue) (old : bool) : bool * option error :=
  match v with
  | JBool b => (b, None)
  | JNull => (old, None)
  | _ => (old, Some type_error)
  end.

(** A Go [int] has 64 bits. *)
Definition set_int (v : JValue) (old : Z) : Z * option error :=
  match v with
  | JNumber n =>
      if ((- 2 ^ 63 <=? n) && (n <? 2 ^ 63))%bool then (n, None)
      else (old, Some type_error)
  | JNull => (old, None)
  | _ => (old, Some type_error)
  end.

Definition set_struct {A : Type}
    (assign : string -> JValue -> A -> A * option error)
    (v : JValue) (old : A) : A * option error :=
  match v with
  | JObject fields =>
      fold_left
        (fun acc kv =>
           let '(x, e) := assign (fst kv) (snd kv) (fst acc) in
           (x, first_error (snd acc) e))
        fields (old, None)
  | JNull => (old, None)
  | _ => (old, Some type_error)
  end.

Definition assign_href (key : string) (v : JValue) (href : string)
  : string * option error :=
  if EqualFold key "href" then set_string v href else (href, None).

Definition assign_CommonProperties (key : string) (v : JValue)
    (c : CommonProperties) : CommonProperties * option error :=
  if EqualFold key "ha" then
    let '(role, e) :=
      set_struct
        (fun k x r => if EqualFold k "role" then set_string x r else (r, None))
        v (Ha_Role c) in
    (mkCommonProperties role (Description c), e)
  else if EqualFold key "description" then
    let '(d, e) := set_string v (Description c) in
    (mkCommonProperties (Ha_Role c) d, e)
  else (c, None).

Definition assign_Version (key : string) (v : JValue) (c : Version)
  : Version * option error :=
  if EqualFold key "version" then
    let '(s, e) := set_string v (Version_Version c) in (mkVersion s, e)
  else (c, None).

Definition assign_MasterConfiguration (key : string) (v : JValue)
    (c : MasterConfiguration) : MasterConfiguration * option error :=
  if EqualFold key "haEnabled" then
    let '(b, e) := set_bool v (HAEnabled c) in
    (mkMasterConfiguration b (AllowedShadowHost c), e)
  else if EqualFold key "allowedShadowHost" then
    let '(s, e) := set_string v (AllowedShadowHost c) in
    (mkMasterConfiguration (HAEnabled c) s, e)
  else (c, None).

Definition assign_MasterState (key : string) (v : JValue) (c : MasterState)
  : MasterState * option error :=
  if EqualFold key "state" then
    let '(s, e) := set_string v (MasterState_State c) in
    (mkMasterState s (ShadowHost c), e)
  else if EqualFold key "shadowHost" then
    let '(s, e) := set_string v (ShadowHost c) in
    (mkMasterState (MasterState_State c) s, e)
  else (c, None).

Definition assign_Links (key : string) (v : JValue) (l : string * string)
  : (string * string) * option error :=
  if EqualFold key "self" then
    let '(s, e) := set_struct assign_href v (fst l) in ((s, snd l), e)
  else if EqualFold key "state" then
    let '(s, e) := set_struct assign_href v (snd l) in ((fst l, s), e)
  else (l, None).

Definition assign_ShadowConfiguration (key : string) (v : JValue)
    (c : ShadowConfiguration) : ShadowConfiguration * option error :=
  let '(mkShadowConfiguration mh mp ci td oh ct rt ls lst) := c in
  if EqualFold key "masterHost" then
    let '(x, e) := set_string v mh in
    (mkShadowConfiguration x mp ci td oh ct rt ls lst, e)
  else if EqualFold key "masterPort" then
    let '(x, e) := set_string v mp in
    (mkShadowConfiguration mh x ci td oh ct rt ls lst, e)
  else if EqualFold key "checkIntervalInSeconds" then
    let '(x, e) := set_int v ci in
    (mkShadowConfiguration mh mp x td oh ct rt ls lst, e)
  else if EqualFold key "takeoverDelayInSeconds" then
    let '(x, e) := set_int v td in
    (mkShadowConfiguration mh mp ci x oh ct rt ls lst, e)
  else if EqualFold key "ownHost" then
    let '(x, e) := set_string v oh in
    (mkShadowConfiguration mh mp ci td x ct rt ls lst, e)
  else if EqualFold key "connectTimeoutInMillis" then
    let '(x, e) := set_int v ct in
    (mkShadowConfiguration mh mp ci td oh x rt ls lst, e)
  else if EqualFold key "requestTimeoutInMillis" then
    let '(x, e) := set_int v rt in
    (mkShadowConfiguration mh mp ci td oh ct x ls lst, e)
  else if EqualFold key "_links" then
    let '((x, y), e) := set_struct assign_Links v (ls, lst) in
    (mkShadowConfiguration mh mp ci td oh ct rt x y, e)
  else (c, None).

Definition assign_ShadowState (key : string) (v : JValue) (c : ShadowState)
  : ShadowState * option error :=
  let '(mkShadowState st oh sm mv) := c in
  if EqualFold key "state" then
    let '(x, e) := set_string v st in (mkShadowState x oh sm mv, e)
  else if EqualFold key "ownHosts" then
    let '(x, e) := set_string v oh in (mkShadowState st x sm mv, e)
  else if EqualFold key "stateMessage" then
    let '(x, e) := set_string v sm in (mkShadowState st oh x mv, e)
  else if EqualFold key "masterVersions" then
    let '(x, e) := set_string v mv in (mkShadowState st oh sm x, e)
  else (c, None).

(** ** The shared client, from its contract

    The methods of the shared client are declared outside the three service
    files.  Their contract: (a) construction of a JSON request from a method,
    a path and a body, the role of the HA settings being sent as a bare
    string; (b) construction of a raw upload request from a byte stream of
    known length and content type; (c) execution of a request, which yields
    the status code and decodes the body into a destination value, copies it
    into a byte buffer or a file, or discards it.  Shadow requests go through
    a builder of their own, which differs in routing. *)

(** What the client stands on: the paths its builders refuse, the JSON codec,
    the transport with the remote connector behind it, and the rule that
    turns an executed response into an error. *)
Record Wire (S : Type) : Type := mkWire {
  malformed : string -> bool;
  marshal : JValue -> string;
  unmarshal : string -> option JValue;
  RoundTrip : Context -> Request -> S -> (Response + error) * S;
  CheckResponse : Response -> option error
}.

Arguments malformed {S} _ _.
Arguments marshal {S} _ _.
Arguments unmarshal {S} _ _.
Arguments RoundTrip {S} _ _ _ _.
Arguments CheckResponse {S} _ _.

Section SharedClient.

Variable S : Type.
Variable wire : Wire S.

(** Modelled from the spec: the body encoding of the missing builders
    [NewRequest] and [NewShadowRequest].  A string body is sent as it is, a
    struct body as its JSON document, a nil body as no body. *)
Definition spec_encode (body : Body) : string * string :=
  match body with
  | body_nil => (""%string, ""%string)
  | body_string s => (s, ""%string)
  | _ =>
      match json_of_Body body with
      | Some doc => (marshal wire doc, "application/json"%string)
      | None => (""%string, ""%string)
      end
  end.

(** Modelled from the spec: the missing request construction shared by
    [NewRequest] and [NewShadowRequest]; it fails on a malformed path. *)
Definition spec_build (route : Target) (method urlStr : string)
    (body : Body) (s : S) : (option Request * option error) * S :=
  if malformed wire urlStr then
    ((None, Some (errors_New ("malformed path " ++ urlStr))), s)
  else
    let '(payload, contentType) := spec_encode body in
    ((Some {| Method := method;
              URL := urlStr;
              Route := route;
              ContentType := contentType;
              ContentLength := Z.of_nat (String.length payload);
              Payload := payload |},
      None), s).

(** Modelled from the spec: the missing method [NewRequest] of the client,
    the default builder. *)
Definition spec_NewRequest : string -> string -> Body -> S ->
                             (option Request * option error) * S :=
  spec_build to_default.

(** Modelled from the spec: the missing method [NewShadowRequest] of the
    client, the builder for the shadow instance. *)
Definition spec_NewShadowRequest : string -> string -> Body -> S ->
                                   (option Request * option error) * S :=
  spec_build to_shadow.

(** Modelled from the spec: the missing method [NewUploadRequest] of the
    client; the body is the stream, with the given length and type. *)
Definition spec_NewUploadRequest (method urlStr : string)
    (reader : option File) (size : Z) (mediaType : string) (s : S)
  : (option Request * option error) * S :=
  if malformed wire urlStr then
    ((None, Some (errors_New ("malformed path " ++ urlStr))), s)
  else
    ((Some {| Method := method;
              URL := urlStr;
              Route := to_default;
              ContentType := mediaType;
              ContentLength := size;
              Payload := match reader with
                         | Some f => data f
                         | None => ""%string
                         end |},
      None), s).

(** Modelled from the spec: what the missing method [Do] does with the
    body of a response, by destination. *)
Definition spec_decode {A : Type}
    (assign : string -> JValue -> A -> A * option error)
    (bytes : string) (old : A) : A * option error :=
  match unmarshal wire bytes with
  | Some doc => set_struct assign doc old
  | None => (old, Some syntax_error)
  end.

(** Modelled from the spec: the missing method [Do], storing the body of
    the response [r] in the destination [v]. *)
Definition spec_store (k : DestKind) (r : Response)
  : dest k -> dest k * option error :=
  match k return dest k -> dest k * option error with
  | into_nil => fun v => (v, None)
  | into_Buffer => fun b => ((b ++ ResponseBody r)%string, None)
  | into_File => fun file =>
      match file with
      | Some f =>
          (Some (mkFile (Name f) (fstat f)
                   (data f ++ ResponseBody r)%string), None)
      | None => (None, Some os_ErrInvalid)
      end
  | into_CommonProperties =>
      spec_decode assign_CommonProperties (ResponseBody r)
  | into_Version => spec_decode assign_Version (ResponseBody r)
  | into_MasterConfiguration =>
      spec_decode assign_MasterConfiguration (ResponseBody r)
  | into_MasterState => spec_decode assign_MasterState (ResponseBody r)
  | into_ShadowConfiguration =>
      spec_decode assign_ShadowConfiguration (ResponseBody r)
  | into_ShadowState => spec_decode assign_ShadowState (ResponseBody r)
  end.

(** Modelled from the spec: the missing method [Do] of the client.  The
    request is executed; a transport error comes back without a response;
    a response the check refuses comes back with its error; otherwise the
    body goes to the destination. *)
Definition spec_Do (k : DestKind) (ctx : Context) (req : option Request)
    (v : dest k) (s : S) : (option Response * option error * dest k) * S :=
  match req with
  | None => ((None, Some (errors_New "nil request"), v), s)
  | Some rq =>
      match RoundTrip wire ctx rq s with
      | (inr e, s') => ((None, Some e, v), s')
      | (inl r, s') =>
          match CheckResponse wire r with
          | Some e => ((Some r, Some e, v), s')
          | None =>
              let '(v', e) := spec_store k r v in
              ((Some r, e, v'), s')
          end
      end
  end.

(** Modelled from the spec: the missing shared client, its four methods. *)
Definition spec_client : Client S :=
  {| NewRequest := spec_NewRequest;
     NewShadowRequest := spec_NewShadowRequest;
     NewUploadRequest := spec_NewUploadRequest;
     Do := spec_Do |}.

End SharedClient.

Arguments spec_encode {S} wire body.
Arguments spec_build {S} wire route method urlStr body s.
Arguments spec_NewRequest {S} wire _ _ _ _.
Arguments spec_NewShadowRequest {S} wire _ _ _ _.
Arguments spec_NewUploadRequest {S} wire method urlStr reader size mediaType s.
Arguments spec_decode {S} wire {A} assign bytes old.
Arguments spec_store {S} wire k r _.
Arguments spec_Do {S} wire k ctx req v s.
Arguments spec_client {S} wire.

(** ** A JSON codec, a transport and a connector to run the client on *)

Definition quote_mark : ascii := ascii_of_nat 34.
Definition backslash : ascii := ascii_of_nat 92.

Fixpoint escape (s : string) : string :=
  match s with
  | EmptyString => EmptyString
  | String c rest =>
      if (Ascii.eqb c quote_mark || Ascii.eqb c backslash)%bool
      then String backslash (String c (escape rest))
      else String c (escape rest)
  end.

Definition quoted (s : string) : string :=
  String quote_mark (escape s ++ String quote_mark EmptyString).

(** Compact JSON text. *)
Fixpoint render (v : JValue) : string :=
  match v with
  | JNull => "null"
  | JBool true => "true"
  | JBool false => "false"
  | JNumber n => Itoa n
  | JString s => quoted s
  | JArray items => "[" ++ String.concat "," (map render items) ++ "]"
  | JObject fields =>
      "{" ++
      String.concat ","
        (map (fun kv => match kv with
                        | (k, x) => quoted k ++ ":" ++ render x
                        end) fields)
      ++ "}"
  end.

(** The text of a string literal after its opening quote, and the rest. *)
Fixpoint scan_string (s : string) : option (string * string) :=
  match s with
  | EmptyString => None
  | String c rest =>
      if Ascii.eqb c quote_mark then Some (EmptyString, rest)
      else if Ascii.eqb c backslash then
        match rest with
        | EmptyString => None
        | String d rest' =>
            match scan_string rest' with
            | Some (text, tail) => Some (String d text, tail)
            | None => None
            end
        end
      else
        match scan_string rest with
        | Some (text, tail) => Some (String c text, tail)
        | None => None
        end
  end.

Definition digit_of (c : ascii) : option Z :=
  let n := nat_of_ascii c in
  if (Nat.leb 48 n && Nat.leb n 57)%bool then Some (Z.of_nat (n - 48))
  else None.

(** The digits at the head of [s], read onto [acc], and the rest. *)
Fixpoint scan_digits (s : string) (acc : Z) (seen : bool)
  : option (Z * string) :=
  match s with
  | EmptyString => if seen then Some (acc, s) else None
  | String c rest =>
      match digit_of c with
      | Some d => scan_digits rest (10 * acc + d) true
      | None => if seen then Some (acc, s) else None
      end
  end.

Fixpoint skip (n : nat) (s : string) : string :=
  match n, s with
  | O, _ => s
  | Datatypes.S n', String _ rest => skip n' rest
  | Datatypes.S _, EmptyString => EmptyString
  end.

(** One value at the head of the text, and the rest; [fuel] bounds the
    number of values, members and items read. *)
Fixpoint parse_value (fuel : nat) (s : string) : option (JValue * string) :=
  match fuel with
  | O => None
  | Datatypes.S fuel' =>
      match s with
      | EmptyString => None
      | String c rest =>
          if Ascii.eqb c quote_mark then
            match scan_string rest with
            | Some (text, tail) => Some (JString text, tail)
            | None => None
            end
          else if Ascii.eqb c "{"%char then
            match rest with
            | String "}"%char tail => Some (JObject [], tail)
            | _ =>
                match parse_members fuel' rest with
                | Some (fields, tail) => Some (JObject fields, tail)
                | None => None
                end
            end
          else if Ascii.eqb c "["%char then
            match rest with
            | String "]"%char tail => Some (JArray [], tail)
            | _ =>
                match parse_items fuel' rest with
                | Some (items, tail) => Some (JArray items, tail)
                | None => None
                end
            end
          else if Ascii.eqb c "-"%char then
            match scan_digits rest 0 false with
            | Some (n, tail) => Some (JNumber (- n), tail)
            | None => None
            end
          else if prefix "null" s then Some (JNull, skip 4 s)
          else if prefix "true" s then Some (JBool true, skip 4 s)
          else if prefix "false" s then Some (JBool false, skip 5 s)
          else
            match scan_digits s 0 false with
            | Some (n, tail) => Some (JNumber n, tail)
            | None => None
            end
      end
  end
with parse_members (fuel : nat) (s : string)
  : option (list (string * JValue) * string) :=
  match fuel with
  | O => None
  | Datatypes.S fuel' =>
      match s with
      | String c rest =>
          if Ascii.eqb c quote_mark then
            match scan_string rest with
            | Some (key, String ":"%char tail) =>
                match parse_value fuel' tail with
                | Some (x, String ","%char more) =>
                    match parse_members fuel' more with
                    | Some (fields, tail') => Some ((key, x) :: fields, tail')
                    | None => None
                    end
                | Some (x, String "}"%char tail') => Some ([(key, x)], tail')
                | _ => None
                end
            | _ => None
            end
          else None
      | EmptyString => None
      end
  end
with parse_items (fuel : nat) (s : string)
  : option (list JValue * string) :=
  match fuel with
  | O => None
  | Datatypes.S fuel' =>
      match parse_value fuel' s with
      | Some (x, String ","%char more) =>
          match parse_items fuel' more with
          | Some (items, tail) => Some (x :: items, tail)
          | None => None
          end
      | Some (x, String "]"%char tail) => Some ([x], tail)
      | _ => None
      end
  end.

(** A whole text is one value and nothing after it. *)
Definition parse (s : string) : option JValue :=
  match parse_value (Datatypes.S (String.length s)) s with
  | Some (v, EmptyString) => Some v
  | _ => None
  end.

(** A table for [mime.TypeByExtension]. *)
Definition TypeByExtension_table (ext : string) : string :=
  if String.eqb ext ".zip" then "application/zip"
  else if String.eqb ext ".json" then "application/json"
  else if String.eqb ext ".xml" then "text/xml; charset=utf-8"
  else "".

(** The connector behind the transport: the master configuration it holds,
    as the bytes it was sent, and the requests it has served. *)
Record Connector : Type := mkConnector {
  stored_config : string;
  served : list Request
}.

Definition fresh_connector : Connector := mkConnector "" [].

(** A server that echoes: a PUT stores the body and answers with it, a GET
    answers with what is stored, both with status 200. *)
Definition echo_RoundTrip (ctx : Context) (rq : Request) (s : Connector)
  : (Response + error) * Connector :=
  if String.eqb (Method rq) "PUT" then
    (inl (mkResponse 200 (Payload rq)),
     mkConnector (Payload rq) (served s ++ [rq]))
  else if String.eqb (Method rq) "GET" then
    (inl (mkResponse 200 (stored_config s)),
     mkConnector (stored_config s) (served s ++ [rq]))
  else
    (inl (mkResponse 405 ""), mkConnector (stored_config s) (served s ++ [rq])).

(** The check of a response that takes the 2xx codes for success. *)
Definition refuse_non_2xx (r : Response) : option error :=
  if ((200 <=? StatusCode r) && (StatusCode r <=? 299))%bool then None
  else Some (errors_New ("unexpected status code " ++ Itoa (StatusCode r))).

Definition echo_wire : Wire Connector :=
  {| malformed := fun _ => false;
     marshal := render;
     unmarshal := parse;
     RoundTrip := echo_RoundTrip;
     CheckResponse := refuse_non_2xx |}.

(** A server with one answer to every request. *)
Definition canned_RoundTrip (answer : Response) (ctx : Context) (rq : Request)
    (s : Connector) : (Response + error) * Connector :=
  (inl answer, mkConnector (stored_config s) (served s ++ [rq])).

(** A wire with a canned server that checks no status; [refuse] makes every
    path malformed. *)
Definition canned_wire (refuse : bool) (answer : Response) : Wire Connector :=
  {| malformed := fun _ => refuse;
     marshal := render;
     unmarshal := parse;
     RoundTrip := canned_RoundTrip answer;
     CheckResponse := fun _ => None |}.

Definition backup_zip : File :=
  mkFile "/var/backups/scc_backup.zip" (inl (mkFileInfo false 5)) "PK-12".

Definition backup_dir : File :=
  mkFile "/var/backups" (inl (mkFileInfo true 4096)) "".

(** Clients on these wires. *)
Definition echo_client : Client Connector := spec_client echo_wire.

Definition answering_client (status : Z) (body : string) : Client Connector :=
  spec_client (canned_wire false (mkResponse status body)).

Definition refusing_client : Client Connector :=
  spec_client (canned_wire true (mkResponse 204 "")).

(** ** More of what a journal says *)

(** [Do] was called and returned the response pointer [resp] and the error
    [e]. *)
Definition execution_failed (resp : option Response) (e : error)
    (ev : Event) : Prop :=
  match ev with
  | called_Do _ _ _ resp' (Some e') => resp' = resp /\ e' = e
  | _ => False
  end.

(** [Do] was called and returned the response pointer [resp], nil or not,
    and a nil error. *)
Definition execution_succeeded (resp : option Response) (ev : Event) : Prop :=
  match ev with
  | called_Do _ _ _ resp' None => resp' = resp
  | _ => False
  end.

(** [Do] was called and returned a nil response and a nil error. *)
Definition answered_nothing (ev : Event) : Prop :=
  match ev with
  | called_Do _ _ _ None None => True
  | _ => False
  end.

(** A first result that is there: a pointer that is not nil. *)
Definition present_value (v : Value) : Prop :=
  match v with
  | no_value => True
  | the_role _ => True
  | the_CommonProperties p => p <> None
  | the_Version p => p <> None
  | the_MasterConfiguration p => p <> None
  | the_MasterState p => p <> None
  | the_ShadowConfiguration p => p <> None
  | the_ShadowState p => p <> None
  end.

(** The request and the error a builder call returned. *)
Definition built_request (ev : Event) : option Request :=
  match ev with
  | called_NewRequest _ _ _ req _
  | called_NewShadowRequest _ _ _ req _
  | called_NewUploadRequest _ _ _ _ _ req _ => req
  | called_Do _ _ _ _ _ => None
  end.

Definition built_error (ev : Event) : option error :=
  match ev with
  | called_NewRequest _ _ _ _ err
  | called_NewShadowRequest _ _ _ _ err
  | called_NewUploadRequest _ _ _ _ _ _ err => err
  | called_Do _ _ _ _ _ => None
  end.

(** The method and the path a builder call was given. *)
Definition endpoint (ev : Event) : option (string * string) :=
  match ev with
  | called_NewRequest method urlStr _ _ _
  | called_NewShadowRequest method urlStr _ _ _
  | called_NewUploadRequest method urlStr _ _ _ _ _ => Some (method, urlStr)
  | called_Do _ _ _ _ _ => None
  end.

(** The journal of one round trip at most: nothing; or one builder call that
    failed; or one builder call that succeeded and one [Do], under the
    context of the caller, of the request that builder returned. *)
Definition single_round_trip (ctx : Context) (j : list Event) : Prop :=
  j = []
  \/ (exists b, is_builder b = true /\ built_error b <> None /\ j = [b])
  \/ (exists b k resp err,
         is_builder b = true /\ built_error b = None
         /\ j = [b; called_Do ctx (built_request b) k resp err]).

(** Two calls of the same operation, whatever their arguments. *)
Definition same_operation (o1 o2 : Operation) : bool :=
  match o1, o2 with
  | op_CreateBackup _ _, op_CreateBackup _ _
  | op_RestoreBackup _ _, op_RestoreBackup _ _
  | op_GetCommonProperties, op_GetCommonProperties
  | op_GetVersion, op_GetVersion
  | op_SetDescription _, op_SetDescription _
  | op_GetHASettings, op_GetHASettings
  | op_SetHASettings _, op_SetHASettings _
  | op_GetMasterConfiguration, op_GetMasterConfiguration
  | op_SetMasterConfiguration _ _, op_SetMasterConfiguration _ _
  | op_GetMasterState, op_GetMasterState
  | op_SetMasterState _, op_SetMasterState _
  | op_ResetMaster, op_ResetMaster
  | op_GetShadowConfiguration, op_GetShadowConfiguration
  | op_SetShadowConfiguration _ _ _ _ _ _ _,
    op_SetShadowConfiguration _ _ _ _ _ _ _
  | op_GetShawodState _, op_GetShawodState _
  | op_ChangeShadowState _ _ _, op_ChangeShadowState _ _ _
  | op_ResetShadow, op_ResetShadow => true
  | _, _ => false
  end.

(** The values of a Go [int]. *)
Definition is_int (n : Z) : Prop := - 2 ^ 63 <= n < 2 ^ 63.

(** A client whose [Do] hands back a nil response and a nil error. *)
Definition mute_client : Client unit :=
  {| NewRequest := fun method urlStr _ w =>
       ((Some (mkRequest method urlStr to_default "" 0 ""), None), w);
     NewShadowRequest := fun method urlStr _ w =>
       ((Some (mkRequest method urlStr to_shadow "" 0 ""), None), w);
     NewUploadRequest := fun method urlStr _ size mediaType w =>
       ((Some (mkRequest method urlStr to_default mediaType size ""), None),
        w);
     Do := fun k _ _ v w => ((None, None, v), w) |}.

(** A wire whose transport fails. *)
Definition broken_wire : Wire Connector :=
  {| malformed := fun _ => false;
     marshal := render;
     unmarshal := parse;
     RoundTrip := fun _ _ s =>
       (inr (errors_New "connection refused"), s);
     CheckResponse := fun _ => None |}.

Definition unreachable_client : Client Connector := spec_client broken_wire.

(** An open file whose stat fails. *)
Definition stale_file : File :=
  mkFile "/mnt/gone/scc_backup.zip"
    (inr (errors_New "stale NFS file handle")) "".

(** ** Conditions on a client *)

(** The file can be uploaded: it is there, its stat succeeds and it is no
    directory. *)
Definition uploadable (file : option File) : Prop :=
  exists f info, file = Some f /\ fstat f = inl info /\ IsDir info = false.

(** The operation gets as far as its request builder: every operation does,
    but [RestoreBackup], which needs a file it can upload. *)
Definition reaches_builder (o : Operation) : Prop :=
  match o with
  | op_RestoreBackup _ file => uploadable file
  | _ => True
  end.

(** Called in the world [w], every request builder of the client returns a
    nil error. *)
Definition builders_succeed {W : Type} (client : Client W) (w : W) : Prop :=
  (forall method urlStr body,
      snd (fst (NewRequest client method urlStr body w)) = None)
  /\ (forall method urlStr body,
         snd (fst (NewShadowRequest client method urlStr body w)) = None)
  /\ (forall method urlStr reader size mediaType,
         snd (fst (NewUploadRequest client method urlStr reader size
                     mediaType w)) = None).

(** Called in the world [w], every request builder of the client returns an
    error. *)
Definition builders_fail {W : Type} (client : Client W) (w : W) : Prop :=
  (forall method urlStr body,
      snd (fst (NewRequest client method urlStr body w)) <> None)
  /\ (forall method urlStr body,
         snd (fst (NewShadowRequest client method urlStr body w)) <> None)
  /\ (forall method urlStr reader size mediaType,
         snd (fst (NewUploadRequest client method urlStr reader size
                     mediaType w)) <> None).

(** Whatever it is asked, [Do] returns the response pointer [resp] and a nil
    error. *)
Definition Do_hands_back {W : Type} (client : Client W)
    (resp : option Response) : Prop :=
  forall k ctx req v w, fst (fst (Do client k ctx req v w)) = (resp, None).

(** A client whose builders succeed and whose [Do] hands back [r]. *)
Definition steady_client (r : Response) : Client unit :=
  {| NewRequest := fun method urlStr _ w =>
       ((Some (mkRequest method urlStr to_default "" 0 ""), None), w);
     NewShadowRequest := fun method urlStr _ w =>
       ((Some (mkRequest method urlStr to_shadow "" 0 ""), None), w);
     NewUploadRequest := fun method urlStr _ size mediaType w =>
       ((Some (mkRequest method urlStr to_default mediaType size ""), None),
        w);
     Do := fun k _ _ v w => ((Some r, None, v), w) |}.

(** What C1 says of the outcome of an operation that was handed the
    response [r]: it returns [r]; the error is nil at status 204 and
    otherwise an error whose message holds the decimal status code. *)
Definition judged_by_204 (r : Response) (out : Outcome Reply) : Prop :=
  exists reply,
    out = Returns reply
    /\ response reply = Some r
    /\ (StatusCode r = 204 -> failure reply = None)
    /\ (StatusCode r <> 204 ->
        exists e, failure reply = Some e
                  /\ Contains (Error e) (Itoa (StatusCode r))).

(** The four operations that mandate 204 and all seventeen, with arguments
    to run them on. *)
Definition checking_operations : list Operation :=
  [op_RestoreBackup "secret" (Some backup_zip);
   op_ResetMaster;
   op_ChangeShadowState "CONNECT" "admin" "secret";
   op_ResetShadow].

Definition every_operation : list Operation :=
  [op_CreateBackup "secret" (Some backup_zip);
   op_RestoreBackup "secret" (Some backup_zip);
   op_GetCommonProperties;
   op_GetVersion;
   op_SetDescription "edge connector";
   op_GetHASettings;
   op_SetHASettings "master";
   op_GetMasterConfiguration;
   op_SetMasterConfiguration true "shadow.example.org";
   op_GetMasterState;
   op_SetMasterState "SWITCH";
   op_ResetMaster;
   op_GetShadowConfiguration;
   op_SetShadowConfiguration "master.example.org" "8443"
     "shadow.example.org" 30 60 5000 5000;
   op_GetShawodState "";
   op_ChangeShadowState "CONNECT" "admin" "secret";
   op_ResetShadow].

(** * Properties *)

(** ** Proof steps shared by the statements about every client *)

(** Unfolds an operation down to the calls of the client methods. *)
Ltac open_operation :=
  cbv beta iota zeta delta
    [run perform fmap bind ret panic deref reply2 reply3
     CreateBackup RestoreBackup GetCommonProperties GetVersion SetDescription
     GetHASettings SetHASettings GetMasterConfiguration SetMasterConfiguration
     GetMasterState SetMasterState ResetMaster GetShadowConfiguration
     SetShadowConfiguration GetShawodState ChangeShadowState ResetShadow
     client_NewRequest client_NewShadowRequest client_NewUploadRequest
     client_Do world journal app fst snd].

(** Names the results of the next call of a client method. *)
Ltac answer_call :=
  match goal with
  | |- context [NewRequest ?c ?m ?u ?b ?w] =>
      destruct (NewRequest c m u b w) as [[? [?|]] ?]
  | |- context [NewShadowRequest ?c ?m ?u ?b ?w] =>
      destruct (NewShadowRequest c m u b w) as [[? [?|]] ?]
  | |- context [NewUploadRequest ?c ?m ?u ?f ?n ?t ?w] =>
      destruct (NewUploadRequest c m u f n t w) as [[? [?|]] ?]
  | |- context [Do ?c ?k ?x ?r ?v ?w] =>
      destruct (Do c k x r v w) as [[[[?|] [?|]] ?] ?]
  end; open_operation.

(** Takes the two cases of the comparison of a status code with 204. *)
Ltac check_status :=
  match goal with
  | |- context [StatusCode ?r =? 204] =>
      destruct (StatusCode r =? 204) eqn:?;
      cbv beta iota delta [negb]; open_operation
  end.

(** Follows an operation to its end, call by call. *)
Ltac follow := repeat (answer_call || check_status).

(** Takes the cases of what [Stat] says of the file of [RestoreBackup]. *)
Ltac stat_file :=
  match goal with
  | |- context [Stat ?file] =>
      destruct file as [[name [[[|] size]|staterr] content]|];
      cbv beta iota delta [Stat fstat IsDir Size Name]; open_operation
  end.

(** Goes through a journal that is a list of known events. *)
Ltac read_journal H :=
  repeat match type of H with
  | Exists _ (_ :: _) =>
      apply Exists_cons in H; destruct H as [H | H];
      [ cbv beta iota delta [builder_failed executed] in H | ]
  | Exists _ [] => apply Exists_nil in H; contradiction
  | False => contradiction
  end.

(** Checks every event of a journal that is a list of known events. *)
Ltac all_events :=
  repeat (apply Forall_cons; [try split; reflexivity|]); apply Forall_nil.

(** Unfolds an operation run on [spec_client] down to the wire. *)
Ltac open_wire :=
  cbv beta iota delta
    [run bind ret
     SetDescription GetHASettings SetHASettings
     GetMasterConfiguration SetMasterConfiguration
     client_NewRequest client_Do
     spec_client spec_NewRequest spec_build spec_encode json_of_Body
     NewRequest Do world journal app fst snd].

Lemma append_empty (t : string) : (t ++ "")%string = t.
Proof.
  induction t as [|c t IH]; simpl; [reflexivity | now rewrite IH].
Qed.

Lemma Contains_suffix (pre s : string) : Contains (pre ++ s) s.
Proof.
  exists pre, EmptyString. now rewrite append_empty.
Qed.

(** Takes the file of a [RestoreBackup] that reaches its builder. *)
Ltac take_upload Hreach :=
  cbv beta iota delta [reaches_builder] in Hreach;
  try (let f := fresh "f" in
       let info := fresh "info" in
       let Hstat := fresh "Hstat" in
       let Hdir := fresh "Hdir" in
       destruct Hreach as (f & info & -> & Hstat & Hdir);
       destruct f as [? [[? ?]|?] ?];
       cbv beta iota delta [fstat] in Hstat;
       [ injection Hstat as <-;
         cbv beta iota delta [IsDir] in Hdir; rewrite Hdir
       | discriminate Hstat ]);
  open_operation;
  cbv beta iota delta [Stat fstat IsDir Size Name]; open_operation.

(** Names the results of the next builder call, which fails by [Hfail]. *)
Ltac refused_call Hfail :=
  let Hn := fresh "Hn" in
  let Hs := fresh "Hs" in
  let Hu := fresh "Hu" in
  let Hcall := fresh "Hcall" in
  destruct Hfail as [Hn [Hs Hu]];
  match goal with
  | |- context [NewRequest ?c ?m ?u ?b ?w] =>
      pose proof (Hn m u b) as Hcall;
      destruct (NewRequest c m u b w) as [[? [?|]] ?]
  | |- context [NewShadowRequest ?c ?m ?u ?b ?w] =>
      pose proof (Hs m u b) as Hcall;
      destruct (NewShadowRequest c m u b w) as [[? [?|]] ?]
  | |- context [NewUploadRequest ?c ?m ?u ?f ?n ?t ?w] =>
      pose proof (Hu m u f n t) as Hcall;
      destruct (NewUploadRequest c m u f n t w) as [[? [?|]] ?]
  end;
  [ open_operation | exfalso; apply Hcall; reflexivity ].

(** Names the results of the next builder call, which succeeds by [Hgood]. *)
Ltac granted_call Hgood :=
  let Hn := fresh "Hn" in
  let Hs := fresh "Hs" in
  let Hu := fresh "Hu" in
  let Hcall := fresh "Hcall" in
  destruct Hgood as [Hn [Hs Hu]];
  match goal with
  | |- context [NewRequest ?c ?m ?u ?b ?w] =>
      pose proof (Hn m u b) as Hcall;
      destruct (NewRequest c m u b w) as [[? [?|]] ?]
  | |- context [NewShadowRequest ?c ?m ?u ?b ?w] =>
      pose proof (Hs m u b) as Hcall;
      destruct (NewShadowRequest c m u b w) as [[? [?|]] ?]
  | |- context [NewUploadRequest ?c ?m ?u ?f ?n ?t ?w] =>
      pose proof (Hu m u f n t) as Hcall;
      destruct (NewUploadRequest c m u f n t w) as [[? [?|]] ?]
  end;
  [ discriminate Hcall | open_operation ].

(** Names the results of the next call of [Do], which hands back [resp] by
    [Hdo]. *)
Ltac handed_back Hdo :=
  let Hcall := fresh "Hcall" in
  match goal with
  | |- context [Do ?c ?k ?x ?r ?v ?w] =>
      pose proof (Hdo k x r v w) as Hcall;
      destruct (Do c k x r v w) as [[[? ?] ?] ?];
      cbv beta iota delta [fst] in Hcall; injection Hcall as -> ->
  end; open_operation.

(** A builder error found in the journal is what the operation returns, with
    a nil response and a nil first result, and [Do] is not in the journal. *)
Lemma builder_error_is_returned :
  forall (W : Type) (client : Client W) (T : string -> string)
         (ctx : Context) (o : Operation) (w : W) (e : error),
    Exists (builder_failed e)
      (journal (snd (run (perform client T ctx o) w))) ->
    (exists v,
        fst (run (perform client T ctx o) w) = Returns (mkReply v None (Some e))
        /\ nil_value v)
    /\ Forall (fun ev => is_Do ev = false)
         (journal (snd (run (perform client T ctx o) w))).
Proof.
  intros W client T ctx o w e.
  destruct o; open_operation; try stat_file; follow;
    intro H; read_journal H; subst;
    (split;
     [ eexists; split; [reflexivity | exact I || reflexivity]
     | all_events ]).
Qed.

(** On a client whose builders fail, an operation that reaches its builder
    has the failure in its journal. *)
Lemma builder_failure_is_met :
  forall (W : Type) (client : Client W) (T : string -> string)
         (ctx : Context) (o : Operation) (w : W),
    builders_fail client w ->
    reaches_builder o ->
    exists e,
      Exists (builder_failed e)
        (journal (snd (run (perform client T ctx o) w))).
Proof.
  intros W client T ctx o w Hfail Hreach.
  destruct o; take_upload Hreach; refused_call Hfail;
    eexists; apply Exists_cons_hd; reflexivity.
Qed.

(** C10. Request-construction failure is effect-free and uniform across the
    seventeen operations.  Whenever the request builder an operation calls
    ([NewRequest], [NewShadowRequest] or [NewUploadRequest]) returns an
    error, the operation returns that very error with a nil response and a
    nil first result (the empty string for the role of [GetHASettings]), and
    [Do] is not called: no request is executed.  And the condition is met:
    on a client whose builders fail, every operation that reaches its
    builder (each does, [RestoreBackup] when its file can be uploaded) calls
    it, gets the error and returns it so. *)
Theorem construction_failure_is_effect_free :
  forall (W : Type) (client : Client W) (T : string -> string)
         (ctx : Context) (o : Operation) (w : W),
    (forall e,
        Exists (builder_failed e)
          (journal (snd (run (perform client T ctx o) w))) ->
        (exists v,
            fst (run (perform client T ctx o) w)
            = Returns (mkReply v None (Some e))
            /\ nil_value v)
        /\ Forall (fun ev => is_Do ev = false)
             (journal (snd (run (perform client T ctx o) w))))
    /\ (builders_fail client w ->
        reaches_builder o ->
        exists e v,
          Exists (builder_failed e)
            (journal (snd (run (perform client T ctx o) w)))
          /\ fst (run (perform client T ctx o) w)
             = Returns (mkReply v None (Some e))
          /\ nil_value v
          /\ Forall (fun ev => is_Do ev = false)
               (journal (snd (run (perform client T ctx o) w)))).
Proof.
  intros W client T ctx o w.
  split.
  - intro e. apply builder_error_is_returned.
  - intros Hfail Hreach.
    destruct (builder_failure_is_met W client T ctx o w Hfail Hreach)
      as [e He].
    destruct (builder_error_is_returned W client T ctx o w e He)
      as [[v [Hv Hnil]] Hdo].
    exists e, v. repeat split; assumption.
Qed.

(** A response found in the journal as handed back by [Do] with a nil error
    is returned by the operations that mandate 204, with the verdict on its
    status code. *)
Lemma executed_response_is_judged :
  forall (W : Type) (client : Client W) (T : string -> string)
         (ctx : Context) (o : Operation) (w : W) (r : Response),
    mandates_204 o = true ->
    Exists (executed r) (journal (snd (run (perform client T ctx o) w))) ->
    judged_by_204 r (fst (run (perform client T ctx o) w)).
Proof.
  intros W client T ctx o w r Hop. unfold judged_by_204.
  destruct o; try discriminate Hop; open_operation; try stat_file; follow;
    intro H; read_journal H; subst;
    (eexists; split; [reflexivity|]; split; [reflexivity|];
     cbv beta iota delta [failure]; split; intro Hs);
    try reflexivity;
    try (exfalso; apply Z.eqb_eq in Heqb; contradiction);
    try (exfalso; apply Z.eqb_neq in Heqb; contradiction);
    (eexists; split; [reflexivity|]; cbv beta iota delta [Error errors_New];
     apply Contains_suffix).
Qed.

(** On a client whose builders succeed and whose [Do] hands back [r], an
    operation that mandates 204 and reaches its builder has [r] in its
    journal. *)
Lemma execution_is_met :
  forall (W : Type) (client : Client W) (T : string -> string)
         (ctx : Context) (o : Operation) (w : W) (r : Response),
    mandates_204 o = true ->
    builders_succeed client w ->
    Do_hands_back client (Some r) ->
    reaches_builder o ->
    Exists (executed r) (journal (snd (run (perform client T ctx o) w))).
Proof.
  intros W client T ctx o w r Hop Hgood Hdo Hreach.
  destruct o; try discriminate Hop; take_upload Hreach;
    granted_call Hgood; handed_back Hdo; follow;
    apply Exists_cons_tl, Exists_cons_hd; reflexivity.
Qed.

(** C1. For each operation that mandates status 204 ([RestoreBackup],
    [ResetMaster], [ResetShadow], [ChangeShadowState]) and every response [r]
    that [Do] hands back to it with a nil error: the operation returns [r]
    itself, not nil; its error is nil when the status code of [r] is 204,
    and otherwise a non-nil error whose message contains the decimal
    rendering of that status code.  And the condition is met: on a client
    whose builders succeed and whose [Do] hands back [r], each of the four
    (for [RestoreBackup], with a file that can be uploaded) does execute its
    request, is handed [r] and returns it so. *)
Theorem status_204_is_mandated :
  forall (W : Type) (client : Client W) (T : string -> string)
         (ctx : Context) (o : Operation) (w : W) (r : Response),
    mandates_204 o = true ->
    (Exists (executed r) (journal (snd (run (perform client T ctx o) w))) ->
     judged_by_204 r (fst (run (perform client T ctx o) w)))
    /\ (builders_succeed client w ->
        Do_hands_back client (Some r) ->
        reaches_builder o ->
        Exists (executed r) (journal (snd (run (perform client T ctx o) w)))
        /\ judged_by_204 r (fst (run (perform client T ctx o) w))).
Proof.
  intros W client T ctx o w r Hop.
  split.
  - apply executed_response_is_judged. exact Hop.
  - intros Hgood Hdo Hreach.
    pose proof (execution_is_met W client T ctx o w r Hop Hgood Hdo Hreach)
      as Hmet.
    split; [exact Hmet|].
    apply executed_response_is_judged; assumption.
Qed.

(** C9. [CreateBackup] checks no status code: whatever response [r] the
    execution hands back with a nil error, of any status code, 4xx and 5xx
    included, [CreateBackup] returns [r] and a nil error. *)
Theorem CreateBackup_checks_no_status :
  forall (W : Type) (client : Client W) (ctx : Context) (password : string)
         (file : option File) (w : W) (r : Response),
    Exists (executed r)
      (journal (snd (run (CreateBackup client ctx password file) w))) ->
    exists file',
      fst (run (CreateBackup client ctx password file) w)
      = Returns (file', (Some r, None)).
Proof.
  intros W client ctx password file w r.
  open_operation; follow; intro H; read_journal H; subst;
    eexists; reflexivity.
Qed.

(** C4. For a file whose stat reports a directory, [RestoreBackup] returns a
    nil response and an error, and has called no method of the client:
    neither [NewUploadRequest] nor [Do]; the world is as it was. *)
Theorem RestoreBackup_refuses_directory :
  forall (W : Type) (client : Client W) (T : string -> string)
         (ctx : Context) (password : string) (f : File) (info : FileInfo)
         (w : W),
    fstat f = inl info ->
    IsDir info = true ->
    run (RestoreBackup client T ctx password (Some f)) w
    = (Returns (None,
                Some (errors_New "the asset to upload can't be a directory")),
       mkSession w []).
Proof.
  intros W client T ctx password f info w Hstat Hdir.
  unfold run, RestoreBackup, Stat.
  rewrite Hstat.
  unfold bind, deref, ret.
  rewrite Hdir.
  reflexivity.
Qed.

(** C3. [RestoreBackup] behaves the same under any two passwords, and every
    upload request it has built was built from the method, the path, the
    file, the size its stat reports and the content type of its extension:
    the password is no argument of the construction. *)
Theorem RestoreBackup_ignores_password :
  forall (W : Type) (client : Client W) (T : string -> string)
         (ctx : Context) (p1 p2 : string) (file : option File) (w : W),
    run (RestoreBackup client T ctx p1 file) w
    = run (RestoreBackup client T ctx p2 file) w
    /\ forall ev,
        In ev (journal (snd (run (RestoreBackup client T ctx p1 file) w))) ->
        is_builder ev = true ->
        exists f info,
          file = Some f /\ fstat f = inl info /\
          ev = called_NewUploadRequest "PUT" "api/v1/configuration/backup"
                 (Some f) (Size info) (T (Ext (Name f)))
                 (fst (fst (NewUploadRequest client "PUT"
                              "api/v1/configuration/backup" (Some f)
                              (Size info) (T (Ext (Name f))) w)))
                 (snd (fst (NewUploadRequest client "PUT"
                              "api/v1/configuration/backup" (Some f)
                              (Size info) (T (Ext (Name f))) w))).
Proof.
  intros W client T ctx p1 p2 file w.
  split; [reflexivity|].
  intros ev.
  open_operation; stat_file; try (intros []; fail).
  match goal with
  | |- context [NewUploadRequest ?c ?m ?u ?f ?n ?t ?x] =>
      destruct (NewUploadRequest c m u f n t x) as [[req err] w'] eqn:Hup
  end.
  destruct err as [e|]; open_operation; follow; intros Hin Hb; simpl in Hin;
    repeat (destruct Hin as [Hin | Hin]; [subst ev|]);
    try contradiction; try discriminate Hb;
    (do 2 eexists; split; [reflexivity|]; split; [reflexivity|];
     cbv beta iota delta [Size Name]; rewrite Hup; reflexivity).
Qed.

(** C5. Every operation on the shadow side ([GetShadowConfiguration],
    [SetShadowConfiguration], [GetShawodState], [ChangeShadowState],
    [ResetShadow]) builds its request through [NewShadowRequest] and through
    no other builder: its first call is [NewShadowRequest], the only call
    after it is the [Do] of the request that builder returned, and
    [NewRequest] is not called. *)
Theorem shadow_operations_use_shadow_builder :
  forall (W : Type) (client : Client W) (T : string -> string)
         (ctx : Context) (o : Operation) (w : W),
    shadow_side o = true ->
    shadow_built ctx (journal (snd (run (perform client T ctx o) w)))
    /\ Forall (fun ev => is_NewRequest ev = false
                         /\ is_NewUploadRequest ev = false)
         (journal (snd (run (perform client T ctx o) w))).
Proof.
  intros W client T ctx o w Hop.
  destruct o; try discriminate Hop; open_operation; follow;
    (split; [| all_events]);
    unfold shadow_built; do 5 eexists;
    first [ left; refine (conj _ eq_refl); discriminate
          | right; split; [reflexivity | do 3 eexists; reflexivity] ].
Qed.

Lemma length_append (a b : string) :
  String.length (a ++ b) = (String.length a + String.length b)%nat.
Proof.
  induction a as [|c a IH]; simpl; [reflexivity | now rewrite IH].
Qed.

Lemma length_escape (s : string) :
  (String.length s <= String.length (escape s))%nat.
Proof.
  induction s as [|c s IH]; simpl; [lia|].
  destruct (Ascii.eqb c quote_mark || Ascii.eqb c backslash)%bool; simpl; lia.
Qed.

(** The JSON text of a string is never the string itself. *)
Lemma render_string_is_wrapped (s : string) : render (JString s) <> s.
Proof.
  intro E. apply (f_equal String.length) in E.
  simpl in E. unfold quoted in E. simpl in E.
  rewrite length_append in E. simpl in E.
  pose proof (length_escape s). lia.
Qed.

(** C6. [GetHASettings] returns the bytes of the response body as they are,
    with no JSON decoding: for every response [r] the execution yields, the
    string returned is the body of [r], whatever the codec of the client
    makes of it. *)
Theorem GetHASettings_returns_raw_body :
  forall (S : Type) (wire : Wire S) (ctx : Context) (s s' : S)
         (r : Response),
    malformed wire "api/v1/configuration/connector/haRole" = false ->
    RoundTrip wire ctx
      (mkRequest "GET" "api/v1/configuration/connector/haRole" to_default
         "" 0 "") s = (inl r, s') ->
    CheckResponse wire r = None ->
    fst (run (GetHASettings (spec_client wire) ctx) s)
    = Returns (ResponseBody r, Some r, None).
Proof.
  intros S wire ctx s s' r Hpath Hrt Hchk.
  open_wire. rewrite Hpath.
  cbv beta iota delta [spec_Do String.length Z.of_nat].
  rewrite Hrt, Hchk.
  reflexivity.
Qed.

(** C2. For every role [role], [SetHASettings] hands the role, a bare string
    value, to [NewRequest], and the request that is built, executed and
    reaches the transport has the role itself as its body: not the JSON text
    of the string, which is never equal to it. *)
Theorem SetHASettings_sends_bare_role :
  forall (S : Type) (wire : Wire S) (ctx : Context) (role : string) (s : S),
    malformed wire "api/v1/configuration/connector/haRole" = false ->
    let rq :=
      mkRequest "POST" "api/v1/configuration/connector/haRole" to_default
        "" (Z.of_nat (String.length role)) role in
    (exists resp err,
        journal (snd (run (SetHASettings (spec_client wire) ctx role) s))
        = [called_NewRequest "POST" "api/v1/configuration/connector/haRole"
             (body_string role) (Some rq) None;
           called_Do ctx (Some rq) into_nil resp err])
    /\ world (snd (run (SetHASettings (spec_client wire) ctx role) s))
       = snd (RoundTrip wire ctx rq s)
    /\ Payload rq = role
    /\ Payload rq <> render (JString role).
Proof.
  intros S wire ctx role s Hpath rq.
  assert (Hrun :
    exists resp err,
      snd (run (SetHASettings (spec_client wire) ctx role) s)
      = mkSession (snd (RoundTrip wire ctx rq s))
          [called_NewRequest "POST" "api/v1/configuration/connector/haRole"
             (body_string role) (Some rq) None;
           called_Do ctx (Some rq) into_nil resp err]).
  { subst rq. open_wire. rewrite Hpath.
    cbv beta iota delta [spec_Do spec_store].
    destruct (RoundTrip wire ctx _ s) as [[r|e] s1]; cbn.
    - destruct (CheckResponse wire r); cbn; do 2 eexists; reflexivity.
    - do 2 eexists; reflexivity. }
  destruct Hrun as (resp & err & Hrun).
  rewrite Hrun. cbn [world journal].
  split; [exists resp, err; reflexivity|].
  split; [reflexivity|].
  split; [reflexivity|].
  cbn [Payload rq]. intro E. symmetry in E.
  exact (render_string_is_wrapped role E).
Qed.

Lemma decode_own_CommonProperties (c : CommonProperties) :
  set_struct assign_CommonProperties (json_of_CommonProperties c)
    zero_CommonProperties = (c, None).
Proof. destruct c. reflexivity. Qed.

Lemma decode_own_MasterConfiguration (c : MasterConfiguration) :
  set_struct assign_MasterConfiguration (json_of_MasterConfiguration c)
    zero_MasterConfiguration = (c, None).
Proof. destruct c. reflexivity. Qed.

(** C7. For every description [d], [SetDescription] sends a PUT whose body
    is the JSON text of the one-field object with the field [description]
    set to [d]; and when the execution succeeds with a body that is the JSON
    document of some properties [c], it returns [c], both fields decoded:
    its [Description] is the one the server sent, whatever [d] was. *)
Theorem SetDescription_body_and_decoding :
  forall (S : Type) (wire : Wire S) (ctx : Context) (d : string) (s s' : S)
         (r : Response) (c : CommonProperties),
    malformed wire "api/v1/configuration/connector" = false ->
    let payload := marshal wire (JObject [("description", JString d)]) in
    let rq :=
      mkRequest "PUT" "api/v1/configuration/connector" to_default
        "application/json" (Z.of_nat (String.length payload)) payload in
    RoundTrip wire ctx rq s = (inl r, s') ->
    CheckResponse wire r = None ->
    unmarshal wire (ResponseBody r) = Some (json_of_CommonProperties c) ->
    run (SetDescription (spec_client wire) ctx d) s
    = (Returns (Some c, Some r, None),
       mkSession s'
         [called_NewRequest "PUT" "api/v1/configuration/connector"
            (body_Description d) (Some rq) None;
          called_Do ctx (Some rq) into_CommonProperties (Some r) None]).
Proof.
  intros S wire ctx d s s' r c Hpath payload rq Hrt Hchk Hdoc.
  subst rq payload. open_wire. rewrite Hpath.
  cbv beta iota delta [spec_Do spec_store spec_decode].
  rewrite Hrt, Hchk, Hdoc, decode_own_CommonProperties.
  reflexivity.
Qed.

(** C8. Round trip through a server that echoes.  For every flag [b] and
    host [h], [SetMasterConfiguration] sends a PUT whose body is the JSON
    text of the object with [haEnabled] set to [b] and [allowedShadowHost]
    set to [h], and a [GetMasterConfiguration] that follows, against the
    server that stored that body, returns a configuration whose [HAEnabled]
    is [b] and whose [AllowedShadowHost] is [h]. *)
Theorem MasterConfiguration_round_trip :
  forall (wire : Wire Connector) (ctx : Context) (b : bool) (h : string)
         (s : Connector),
    malformed wire "api/v1/configuration/connector/ha/master/config" = false ->
    RoundTrip wire = echo_RoundTrip ->
    (forall r, StatusCode r = 200 -> CheckResponse wire r = None) ->
    let doc := JObject [("haEnabled", JBool b);
                        ("allowedShadowHost", JString h)] in
    unmarshal wire (marshal wire doc) = Some doc ->
    let rq :=
      mkRequest "PUT" "api/v1/configuration/connector/ha/master/config"
        to_default "application/json"
        (Z.of_nat (String.length (marshal wire doc))) (marshal wire doc) in
    exists s1 s2 resp1 resp2 got,
      run (SetMasterConfiguration (spec_client wire) ctx b h) s
      = (Returns (Some (mkMasterConfiguration b h), Some resp1, None), s1)
      /\ journal s1
         = [called_NewRequest "PUT"
              "api/v1/configuration/connector/ha/master/config"
              (body_MasterConfiguration (mkMasterConfiguration b h))
              (Some rq) None;
            called_Do ctx (Some rq) into_MasterConfiguration (Some resp1)
              None]
      /\ served (world s1) = (served s ++ [rq])%list
      /\ run (GetMasterConfiguration (spec_client wire) ctx) (world s1)
         = (Returns (Some got, Some resp2, None), s2)
      /\ HAEnabled got = b
      /\ AllowedShadowHost got = h.
Proof.
  intros wire ctx b h s Hpath Hecho Hchk doc Hcodec rq.
  pose proof (decode_own_MasterConfiguration (mkMasterConfiguration b h))
    as Hdec.
  change (json_of_MasterConfiguration (mkMasterConfiguration b h))
    with doc in Hdec.
  do 2 eexists.
  exists (mkResponse 200 (marshal wire doc)),
         (mkResponse 200 (marshal wire doc)),
         (mkMasterConfiguration b h).
  split; [|split; [|split; [|split; [|split; reflexivity]]]].
  - subst rq. open_wire. rewrite Hpath.
    cbv beta iota delta [spec_Do spec_store spec_decode
                           json_of_MasterConfiguration HAEnabled
                           AllowedShadowHost].
    fold doc. rewrite Hecho.
    cbv beta iota delta [echo_RoundTrip Method Payload String.eqb Ascii.eqb
                           Bool.eqb].
    rewrite (Hchk (mkResponse 200 (marshal wire doc)) eq_refl).
    cbv beta iota delta [ResponseBody].
    rewrite Hcodec, Hdec.
    reflexivity.
  - reflexivity.
  - reflexivity.
  - open_wire. rewrite Hpath.
    cbv beta iota delta [spec_Do spec_store spec_decode].
    rewrite Hecho.
    cbv beta iota delta [echo_RoundTrip Method Payload String.eqb Ascii.eqb
                           Bool.eqb stored_config].
    rewrite (Hchk (mkResponse 200 (marshal wire doc)) eq_refl).
    cbv beta iota delta [ResponseBody].
    rewrite Hcodec, Hdec.
    reflexivity.
Qed.

(** ** The statements at concrete inputs *)

Example Itoa_examples :
  Itoa 204 = "204" /\ Itoa 0 = "0" /\ Itoa 404 = "404" /\ Itoa (-1) = "-1".
Proof. repeat split; reflexivity. Qed.

Example Ext_examples :
  Ext "/var/backups/scc_backup.zip" = ".zip"
  /\ Ext "archive.tar.gz" = ".gz"
  /\ Ext "/etc/conf.d/backup" = ""
  /\ Ext "" = "".
Proof. repeat split; reflexivity. Qed.

Lemma construction_failure_witness :
  Forall
    (fun o =>
       exists e v,
         Exists (builder_failed e)
           (journal
              (snd (run (perform refusing_client TypeByExtension_table
                           Background o) fresh_connector)))
         /\ fst (run (perform refusing_client TypeByExtension_table
                        Background o) fresh_connector)
            = Returns (mkReply v None (Some e))
         /\ nil_value v
         /\ Forall (fun ev => is_Do ev = false)
              (journal
                 (snd (run (perform refusing_client TypeByExtension_table
                              Background o) fresh_connector))))
    every_operation.
Proof.
  unfold every_operation.
  repeat (apply Forall_cons;
          [ apply (proj2 (construction_failure_is_effect_free Connector
                            refusing_client TypeByExtension_table Background
                            _ fresh_connector));
            [ repeat split; intros; discriminate
            | first [ exact I
                    | exists backup_zip, (mkFileInfo false 5);
                      repeat split; reflexivity ] ]
          | ]).
  apply Forall_nil.
Defined.

Lemma status_204_witness :
  Forall
    (fun o =>
       judged_by_204 (mkResponse 404 "Not Found")
         (fst (run (perform (steady_client (mkResponse 404 "Not Found"))
                      TypeByExtension_table Background o) tt))
       /\ judged_by_204 (mkResponse 204 "")
            (fst (run (perform (steady_client (mkResponse 204 ""))
                         TypeByExtension_table Background o) tt)))
    checking_operations.
Proof.
  unfold checking_operations.
  repeat (apply Forall_cons;
          [ cbv beta; split;
            match goal with
            | |- judged_by_204 ?r (fst (run (perform ?c ?T ?x ?o) ?w)) =>
                refine (proj2 (proj2 (status_204_is_mandated unit c T x o w r
                                        eq_refl) _ _ _))
            end;
            [ repeat split; reflexivity
            | intros k ctx req v w; reflexivity
            | first [ exact I
                    | exists backup_zip, (mkFileInfo false 5);
                      repeat split; reflexivity ]
            | repeat split; reflexivity
            | intros k ctx req v w; reflexivity
            | first [ exact I
                    | exists backup_zip, (mkFileInfo false 5);
                      repeat split; reflexivity ] ]
          | ]).
  apply Forall_nil.
Defined.

Lemma CreateBackup_witness :
  exists file',
    fst (run (CreateBackup (answering_client 500 "Internal Server Error")
                Background "secret" (Some backup_zip)) fresh_connector)
    = Returns
        (file', (Some (mkResponse 500 "Internal Server Error"), None)).
Proof.
  apply CreateBackup_checks_no_status.
  vm_compute. apply Exists_cons_tl, Exists_cons_hd. reflexivity.
Defined.

Lemma RestoreBackup_directory_witness :
  run (RestoreBackup echo_client TypeByExtension_table Background "secret"
         (Some backup_dir)) fresh_connector
  = (Returns (None,
              Some (errors_New "the asset to upload can't be a directory")),
     mkSession fresh_connector []).
Proof.
  apply (RestoreBackup_refuses_directory Connector echo_client
           TypeByExtension_table Background "secret" backup_dir
           (mkFileInfo true 4096) fresh_connector).
  - reflexivity.
  - reflexivity.
Defined.

Lemma RestoreBackup_password_witness :
  run (RestoreBackup (answering_client 204 "") TypeByExtension_table
         Background "one" (Some backup_zip)) fresh_connector
  = run (RestoreBackup (answering_client 204 "") TypeByExtension_table
           Background "two" (Some backup_zip)) fresh_connector
  /\ exists f info,
      Some backup_zip = Some f /\ fstat f = inl info /\
      called_NewUploadRequest "PUT" "api/v1/configuration/backup"
        (Some backup_zip) 5 "application/zip"
        (Some (mkRequest "PUT" "api/v1/configuration/backup" to_default
                 "application/zip" 5 "PK-12")) None
      = called_NewUploadRequest "PUT" "api/v1/configuration/backup"
          (Some f) (Size info) (TypeByExtension_table (Ext (Name f)))
          (fst (fst (NewUploadRequest (answering_client 204 "") "PUT"
                       "api/v1/configuration/backup" (Some f) (Size info)
                       (TypeByExtension_table (Ext (Name f)))
                       fresh_connector)))
          (snd (fst (NewUploadRequest (answering_client 204 "") "PUT"
                       "api/v1/configuration/backup" (Some f) (Size info)
                       (TypeByExtension_table (Ext (Name f)))
                       fresh_connector))).
Proof.
  destruct (RestoreBackup_ignores_password Connector (answering_client 204 "")
              TypeByExtension_table Background "one" "two" (Some backup_zip)
              fresh_connector) as [Hsame Hbuilt].
  split; [exact Hsame|].
  apply Hbuilt.
  - vm_compute. left. reflexivity.
  - reflexivity.
Defined.

Lemma shadow_builder_witness :
  shadow_built Background
    (journal
       (snd (run (perform (answering_client 204 "") TypeByExtension_table
                    Background
                    (op_ChangeShadowState "CONNECT" "admin" "secret"))
               fresh_connector)))
  /\ Forall (fun ev => is_NewRequest ev = false
                       /\ is_NewUploadRequest ev = false)
       (journal
          (snd (run (perform (answering_client 204 "") TypeByExtension_table
                       Background
                       (op_ChangeShadowState "CONNECT" "admin" "secret"))
                  fresh_connector))).
Proof.
  apply shadow_operations_use_shadow_builder. reflexivity.
Defined.

Lemma GetHASettings_witness :
  fst (run (GetHASettings (answering_client 200 "shadow") Background)
         fresh_connector)
  = Returns ("shadow", Some (mkResponse 200 "shadow"), None).
Proof.
  apply (GetHASettings_returns_raw_body Connector
           (canned_wire false (mkResponse 200 "shadow")) Background
           fresh_connector
           (mkConnector ""
              [mkRequest "GET" "api/v1/configuration/connector/haRole"
                 to_default "" 0 ""])
           (mkResponse 200 "shadow")).
  - reflexivity.
  - reflexivity.
  - reflexivity.
Defined.

Lemma SetHASettings_witness :
  (exists resp err,
      journal (snd (run (SetHASettings echo_client Background "master")
                      fresh_connector))
      = [called_NewRequest "POST" "api/v1/configuration/connector/haRole"
           (body_string "master")
           (Some (mkRequest "POST" "api/v1/configuration/connector/haRole"
                    to_default "" 6 "master")) None;
         called_Do Background
           (Some (mkRequest "POST" "api/v1/configuration/connector/haRole"
                    to_default "" 6 "master")) into_nil resp err])
  /\ world (snd (run (SetHASettings echo_client Background "master")
                   fresh_connector))
     = snd (RoundTrip echo_wire Background
              (mkRequest "POST" "api/v1/configuration/connector/haRole"
                 to_default "" 6 "master") fresh_connector)
  /\ "master" = "master"
  /\ "master" <> render (JString "master").
Proof.
  apply (SetHASettings_sends_bare_role Connector echo_wire Background
           "master" fresh_connector).
  reflexivity.
Defined.

Lemma SetDescription_witness :
  fst (run (SetDescription
              (answering_client 200
                 (render (json_of_CommonProperties
                            (mkCommonProperties "master" "edge connector"))))
              Background "x") fresh_connector)
  = Returns
      (Some (mkCommonProperties "master" "edge connector"),
       Some (mkResponse 200
               (render (json_of_CommonProperties
                          (mkCommonProperties "master" "edge connector")))),
       None).
Proof.
  refine (f_equal fst
            (SetDescription_body_and_decoding Connector
               (canned_wire false
                  (mkResponse 200
                     (render (json_of_CommonProperties
                                (mkCommonProperties "master"
                                   "edge connector")))))
               Background "x" fresh_connector _ _
               (mkCommonProperties "master" "edge connector")
               _ _ _ _)).
  - reflexivity.
  - reflexivity.
  - reflexivity.
  - vm_compute. reflexivity.
Defined.

Lemma MasterConfiguration_round_trip_witness :
  exists s1 s2 resp1 resp2 got,
    run (SetMasterConfiguration echo_client Background true "h")
      fresh_connector
    = (Returns (Some (mkMasterConfiguration true "h"), Some resp1, None), s1)
    /\ journal s1
       = [called_NewRequest "PUT"
            "api/v1/configuration/connector/ha/master/config"
            (body_MasterConfiguration (mkMasterConfiguration true "h"))
            (Some (mkRequest "PUT"
                     "api/v1/configuration/connector/ha/master/config"
                     to_default "application/json" 42
                     (render (json_of_MasterConfiguration
                                (mkMasterConfiguration true "h")))))
            None;
          called_Do Background
            (Some (mkRequest "PUT"
                     "api/v1/configuration/connector/ha/master/config"
                     to_default "application/json" 42
                     (render (json_of_MasterConfiguration
                                (mkMasterConfiguration true "h")))))
            into_MasterConfiguration (Some resp1) None]
    /\ served (world s1)
       = [mkRequest "PUT" "api/v1/configuration/connector/ha/master/config"
            to_default "application/json" 42
            (render (json_of_MasterConfiguration
                       (mkMasterConfiguration true "h")))]
    /\ run (GetMasterConfiguration echo_client Background) (world s1)
       = (Returns (Some got, Some resp2, None), s2)
    /\ HAEnabled got = true
    /\ AllowedShadowHost got = "h".
Proof.
  apply (MasterConfiguration_round_trip echo_wire Background true "h"
           fresh_connector).
  - reflexivity.
  - reflexivity.
  - intros r Hr. unfold echo_wire, CheckResponse, refuse_non_2xx.
    rewrite Hr. reflexivity.
  - vm_compute. reflexivity.
Defined.

(** * Further properties of the operations *)

(** Goes through a journal that is a list of known events, for the
    predicates on executions. *)
Ltac read_events H :=
  repeat match type of H with
  | Exists _ (_ :: _) =>
      apply Exists_cons in H; destruct H as [H | H];
      [ cbv beta iota delta
          [execution_failed execution_succeeded answered_nothing executed
           builder_failed] in H | ]
  | Exists _ [] => apply Exists_nil in H; contradiction
  | _ /\ _ => let H' := fresh H in destruct H as [H' H]; try subst
  | False => contradiction
  end.

(** X1. Whenever [Do] returns an error to an operation, the operation
    returns that error and the response pointer [Do] returned with it, nil
    or not, and a nil first result: what [Do] may have written into the
    destination is not handed to the caller (the role of [GetHASettings] is
    the empty string). *)
Theorem execution_failure_is_propagated :
  forall (W : Type) (client : Client W) (T : string -> string)
         (ctx : Context) (o : Operation) (w : W)
         (resp : option Response) (e : error),
    Exists (execution_failed resp e)
      (journal (snd (run (perform client T ctx o) w))) ->
    exists v,
      fst (run (perform client T ctx o) w) = Returns (mkReply v resp (Some e))
      /\ nil_value v.
Proof.
  intros W client T ctx o w resp e.
  destruct o; open_operation; try stat_file; follow;
    intro H; read_events H; subst;
    (eexists; split; [reflexivity | exact I || reflexivity]).
Qed.

(** X2. Every operation makes one round trip at most, on any client: it
    calls nothing, or one request builder that fails, or one request builder
    and then [Do] once, under the context it was given and with the request
    that builder returned.  No call is repeated.  Only [RestoreBackup] can
    end without a call. *)
Theorem operations_make_one_round_trip :
  forall (W : Type) (client : Client W) (T : string -> string)
         (ctx : Context) (o : Operation) (w : W),
    single_round_trip ctx (journal (snd (run (perform client T ctx o) w)))
    /\ (journal (snd (run (perform client T ctx o) w)) = [] ->
        exists password file, o = op_RestoreBackup password file).
Proof.
  intros W client T ctx o w.
  destruct o; open_operation; try stat_file; follow;
    (split;
     [ unfold single_round_trip;
       first [ left; reflexivity
             | right; left; eexists;
               refine (conj _ (conj _ eq_refl));
               [reflexivity | discriminate]
             | right; right; do 4 eexists;
               refine (conj _ (conj _ eq_refl)); reflexivity ]
     | intro Hj; first [ discriminate Hj | do 2 eexists; reflexivity ] ]).
Qed.

(** X3. Only the four operations of C1 look at the status code.  For each of
    the other thirteen, on any client: whatever [Do] returns with a nil
    error, a response of any status code or no response at all, the
    operation returns it with a nil error and a first result that is not
    nil. *)
Theorem other_operations_check_no_status :
  forall (W : Type) (client : Client W) (T : string -> string)
         (ctx : Context) (o : Operation) (w : W) (resp : option Response),
    mandates_204 o = false ->
    Exists (execution_succeeded resp)
      (journal (snd (run (perform client T ctx o) w))) ->
    exists v,
      fst (run (perform client T ctx o) w) = Returns (mkReply v resp None)
      /\ present_value v.
Proof.
  intros W client T ctx o w resp Hop.
  destruct o; try discriminate Hop; open_operation; follow;
    intro H; read_events H; subst;
    (eexists; split; [reflexivity | exact I || discriminate]).
Qed.

(** X4. The four operations that read the status code read it through the
    response pointer without a nil check: when [Do] hands one of them a nil
    response with a nil error, the operation panics.  And the condition is
    met: on a client whose builders succeed and whose [Do] hands back
    nothing, each of the four (for [RestoreBackup], with a file that can be
    uploaded) panics. *)
Theorem nil_response_panics :
  forall (W : Type) (client : Client W) (T : string -> string)
         (ctx : Context) (o : Operation) (w : W),
    mandates_204 o = true ->
    (Exists answered_nothing
       (journal (snd (run (perform client T ctx o) w))) ->
     fst (run (perform client T ctx o) w) = Panics)
    /\ (builders_succeed client w ->
        Do_hands_back client None ->
        reaches_builder o ->
        fst (run (perform client T ctx o) w) = Panics).
Proof.
  intros W client T ctx o w Hop.
  split.
  - destruct o; try discriminate Hop; open_operation; try stat_file; follow;
      intro H; first [ reflexivity | exfalso; read_events H ].
  - intros Hgood Hdo Hreach.
    destruct o; try discriminate Hop; take_upload Hreach;
      granted_call Hgood; handed_back Hdo; reflexivity.
Qed.

(** X5. When the stat of the file fails, [RestoreBackup] returns a nil
    response and the error of the stat, and calls no method of the client.
    A nil file is such a case, with [os.ErrInvalid]. *)
Theorem RestoreBackup_stat_failure :
  forall (W : Type) (client : Client W) (T : string -> string)
         (ctx : Context) (password : string) (file : option File) (w : W)
         (e : error),
    snd (Stat file) = Some e ->
    run (RestoreBackup client T ctx password file) w
    = (Returns (None, Some e), mkSession w []).
Proof.
  intros W client T ctx password file w e.
  unfold run, RestoreBackup.
  destruct (Stat file) as [stat [e'|]]; simpl; intro H.
  - injection H as ->. reflexivity.
  - discriminate H.
Qed.

(** X6. An operation that is not on the shadow side never calls
    [NewShadowRequest], on any client.  [NewUploadRequest] is called by
    [RestoreBackup] only, and [RestoreBackup] never calls [NewRequest]. *)
Theorem default_operations_use_default_builders :
  forall (W : Type) (client : Client W) (T : string -> string)
         (ctx : Context) (o : Operation) (w : W),
    shadow_side o = false ->
    Forall (fun ev => is_NewShadowRequest ev = false)
      (journal (snd (run (perform client T ctx o) w)))
    /\ (Exists (fun ev => is_NewUploadRequest ev = true)
          (journal (snd (run (perform client T ctx o) w))) ->
        exists password file, o = op_RestoreBackup password file)
    /\ (Exists (fun ev => is_NewRequest ev = true)
          (journal (snd (run (perform client T ctx o) w))) ->
        forall password file, o <> op_RestoreBackup password file).
Proof.
  intros W client T ctx o w Hop.
  destruct o; try discriminate Hop; open_operation; try stat_file; follow;
    (split; [all_events|]; split; intro H;
     first [ do 2 eexists; reflexivity
           | discriminate
           | exfalso;
             repeat (apply Exists_cons in H; destruct H as [H | H];
                     [discriminate H|]);
             apply Exists_nil in H; exact H ]).
Qed.

(** X7. [GetShawodState] does not use its [description] parameter: it
    behaves the same under any two descriptions, on any client, and the one
    request it builds is a GET with a nil body. *)
Theorem GetShawodState_ignores_description :
  forall (W : Type) (client : Client W) (ctx : Context) (d1 d2 : string)
         (w : W),
    run (GetShawodState client ctx d1) w = run (GetShawodState client ctx d2) w
    /\ exists req err rest,
        journal (snd (run (GetShawodState client ctx d1) w))
        = called_NewShadowRequest "GET"
            "api/v1/configuration/connector/ha/shadow/state" body_nil req err
          :: rest.
Proof.
  intros W client ctx d1 d2 w.
  split; [reflexivity|].
  open_operation; follow; do 3 eexists; reflexivity.
Qed.

Lemma Itoa_read_back (n : Z) :
  option_map Z.of_int (NilZero.int_of_string (Itoa n)) = Some n.
Proof.
  unfold Itoa.
  rewrite NilZero.isi.
  - simpl. now rewrite DecimalZ.of_to.
  - destruct n as [|p|p]; simpl; try discriminate.
    intros [= H]. exact (Unsigned.to_uint_nonnil p H).
  - destruct n as [|p|p]; simpl; try discriminate.
    intros [= H]. exact (Unsigned.to_uint_nonnil p H).
Qed.

Lemma Itoa_injective (n m : Z) : Itoa n = Itoa m -> n = m.
Proof.
  intro H.
  pose proof (Itoa_read_back n) as Hn.
  rewrite H, Itoa_read_back in Hn.
  now injection Hn.
Qed.

Lemma append_cancel (p a b : string) :
  (p ++ a)%string = (p ++ b)%string -> a = b.
Proof.
  induction p as [|c p IH]; simpl; intro H; [exact H|].
  injection H as H. exact (IH H).
Qed.

(** X8. The error of a refused status tells the status: when two runs of one
    of the four operations of C1, on any clients, get responses with status
    codes other than 204 and return errors with the same message, the two
    status codes are the same. *)
Theorem refused_status_is_told_by_the_error :
  forall (W1 W2 : Type) (client1 : Client W1) (client2 : Client W2)
         (T1 T2 : string -> string) (ctx1 ctx2 : Context) (o : Operation)
         (w1 : W1) (w2 : W2) (r1 r2 : Response) (reply1 reply2 : Reply)
         (e1 e2 : error),
    mandates_204 o = true ->
    Exists (executed r1) (journal (snd (run (perform client1 T1 ctx1 o) w1))) ->
    Exists (executed r2) (journal (snd (run (perform client2 T2 ctx2 o) w2))) ->
    StatusCode r1 <> 204 ->
    StatusCode r2 <> 204 ->
    fst (run (perform client1 T1 ctx1 o) w1) = Returns reply1 ->
    fst (run (perform client2 T2 ctx2 o) w2) = Returns reply2 ->
    failure reply1 = Some e1 ->
    failure reply2 = Some e2 ->
    Error e1 = Error e2 ->
    StatusCode r1 = StatusCode r2.
Proof.
  intros W1 W2 client1 client2 T1 T2 ctx1 ctx2 o w1 w2 r1 r2 reply1 reply2
         e1 e2 Hop.
  destruct o; try discriminate Hop; open_operation; try stat_file; follow;
    intros H1 H2; read_events H1; read_events H2; subst;
    intros N1 N2 R1 R2 F1 F2 E;
    try (apply Z.eqb_eq in Heqb; contradiction);
    try (apply Z.eqb_eq in Heqb0; contradiction);
    injection R1 as <-; injection R2 as <-;
    injection F1 as <-; injection F2 as <-;
    cbv beta iota delta [Error errors_New] in E;
    repeat match type of E with
           | String _ _ = String _ _ => injection E as E
           | (_ ++ _)%string = (_ ++ _)%string => apply append_cancel in E
           end;
    exact (Itoa_injective _ _ E).
Qed.

(** X9. [ChangeShadowState] reports a refused status in the words of
    [ResetShadow]: for a response with the same status code other than 204,
    the two operations return the same error, the message being
    "shadow reset failed with status code" and the code. *)
Theorem ChangeShadowState_error_is_that_of_ResetShadow :
  forall (W1 W2 : Type) (client1 : Client W1) (client2 : Client W2)
         (ctx1 ctx2 : Context) (op user password : string)
         (w1 : W1) (w2 : W2) (r1 r2 : Response),
    Exists (executed r1)
      (journal (snd (run (ChangeShadowState client1 ctx1 op user password)
                       w1))) ->
    Exists (executed r2)
      (journal (snd (run (ResetShadow client2 ctx2) w2))) ->
    StatusCode r1 <> 204 ->
    StatusCode r2 = StatusCode r1 ->
    fst (run (ChangeShadowState client1 ctx1 op user password) w1)
    = Returns
        (Some r1,
         Some (errors_New ("shadow reset failed with status code "
                           ++ Itoa (StatusCode r1))))
    /\ fst (run (ResetShadow client2 ctx2) w2)
       = Returns
           (Some r2,
            Some (errors_New ("shadow reset failed with status code "
                              ++ Itoa (StatusCode r1)))).
Proof.
  intros W1 W2 client1 client2 ctx1 ctx2 op user password w1 w2 r1 r2.
  open_operation; follow;
    intros H1 H2; read_events H1; read_events H2; subst;
    intros N E;
    try (apply Z.eqb_eq in Heqb; congruence);
    try (apply Z.eqb_eq in Heqb0; congruence);
    rewrite E; split; reflexivity.
Qed.

(** Takes the events of a journal that is a list of known events. *)
Ltac pick_event H :=
  simpl in H;
  repeat (destruct H as [H | H]; [subst|]);
  try contradiction.

(** Takes the cases of what [Stat] says of every file at hand. *)
Ltac stat_files :=
  repeat match goal with
         | f : option File |- _ => destruct f as [[? [[[|] ?]|?] ?]|]
         end;
  open_operation;
  cbv beta iota delta [Stat fstat IsDir Size Name]; open_operation.

(** X10. The method and the path of an operation are fixed: two calls of the
    same operation, with any arguments, on any clients and worlds, give
    their request builders the same method and the same path.  No argument
    of an operation reaches the method or the path. *)
Theorem endpoint_is_fixed :
  forall (W1 W2 : Type) (client1 : Client W1) (client2 : Client W2)
         (T1 T2 : string -> string) (ctx1 ctx2 : Context)
         (o1 o2 : Operation) (w1 : W1) (w2 : W2) (b1 b2 : Event),
    same_operation o1 o2 = true ->
    In b1 (journal (snd (run (perform client1 T1 ctx1 o1) w1))) ->
    In b2 (journal (snd (run (perform client2 T2 ctx2 o2) w2))) ->
    is_builder b1 = true ->
    is_builder b2 = true ->
    endpoint b1 = endpoint b2.
Proof.
  intros W1 W2 client1 client2 T1 T2 ctx1 ctx2 o1 o2 w1 w2 b1 b2 Hop.
  destruct o1; destruct o2; try discriminate Hop; clear Hop;
    stat_files; follow;
    intros H1 H2; pick_event H1; pick_event H2;
    intros B1 B2; try discriminate B1; try discriminate B2; reflexivity.
Qed.

Lemma set_int_in_range (n old : Z) :
  is_int n -> set_int (JNumber n) old = (n, None).
Proof.
  unfold is_int, set_int. intros [Hlo Hhi].
  apply Z.leb_le in Hlo. apply Z.ltb_lt in Hhi.
  now rewrite Hlo, Hhi.
Qed.

Lemma decode_own_ShadowConfiguration (c : ShadowConfiguration) :
  is_int (CheckIntervalInSeconds c) ->
  is_int (TakeoverDelayInSeconds c) ->
  is_int (ConnectTimeoutInMillis c) ->
  is_int (RequestTimeoutInMillis c) ->
  set_struct assign_ShadowConfiguration (json_of_ShadowConfiguration c)
    zero_ShadowConfiguration = (c, None).
Proof.
  destruct c as [mh mp ci td oh ct rt ls lst].
  cbv beta iota delta
    [CheckIntervalInSeconds TakeoverDelayInSeconds ConnectTimeoutInMillis
     RequestTimeoutInMillis].
  intros Hci Htd Hct Hrt.
  cbv beta iota zeta delta -[set_int Z.pow Z.leb Z.ltb Z.opp].
  repeat (rewrite set_int_in_range by assumption;
          cbv beta iota zeta delta -[set_int Z.pow Z.leb Z.ltb Z.opp]).
  reflexivity.
Qed.

(** X11. [SetShadowConfiguration] hands each of its seven arguments to the
    builder under the field of its name: the JSON document of the body it
    passes to [NewShadowRequest] decodes to the configuration with those
    seven values, the links being empty.  The four numbers are Go [int]s. *)
Theorem SetShadowConfiguration_sends_its_arguments :
  forall (W : Type) (client : Client W) (ctx : Context)
         (masterHost masterPort ownHost : string)
         (checkIntervalInSeconds takeoverDelayInSeconds
          connectTimeoutInMillis requestTimeoutInMillis : Z) (w : W),
    is_int checkIntervalInSeconds ->
    is_int takeoverDelayInSeconds ->
    is_int connectTimeoutInMillis ->
    is_int requestTimeoutInMillis ->
    exists body doc req err rest,
      journal
        (snd (run (SetShadowConfiguration client ctx masterHost masterPort
                     ownHost checkIntervalInSeconds takeoverDelayInSeconds
                     connectTimeoutInMillis requestTimeoutInMillis) w))
      = called_NewShadowRequest "PUT"
          "api/v1/configuration/connector/ha/shadow/config" body req err
        :: rest
      /\ json_of_Body body = Some doc
      /\ set_struct assign_ShadowConfiguration doc zero_ShadowConfiguration
         = ({| MasterHost := masterHost;
               MasterPort := masterPort;
               CheckIntervalInSeconds := checkIntervalInSeconds;
               TakeoverDelayInSeconds := takeoverDelayInSeconds;
               OwnHost := ownHost;
               ConnectTimeoutInMillis := connectTimeoutInMillis;
               RequestTimeoutInMillis := requestTimeoutInMillis;
               Links_Self_Href := "";
               Links_State_Href := "" |}, None).
Proof.
  intros W client ctx mh mp oh ci td ct rt w Hci Htd Hct Hrt.
  open_operation; follow;
    (do 5 eexists; split; [reflexivity|]; split; [reflexivity|];
     apply decode_own_ShadowConfiguration; assumption).
Qed.

(** X12. The two structs that are both sent and received,
    [MasterConfiguration] and [ShadowConfiguration], come back from their
    own JSON document as they were: the [json] tags name each field once and
    the decoding finds every field the encoding wrote.  The numbers are Go
    [int]s. *)
Theorem configurations_round_trip :
  (forall c : MasterConfiguration,
      set_struct assign_MasterConfiguration (json_of_MasterConfiguration c)
        zero_MasterConfiguration = (c, None))
  /\ (forall c : ShadowConfiguration,
         is_int (CheckIntervalInSeconds c) ->
         is_int (TakeoverDelayInSeconds c) ->
         is_int (ConnectTimeoutInMillis c) ->
         is_int (RequestTimeoutInMillis c) ->
         set_struct assign_ShadowConfiguration (json_of_ShadowConfiguration c)
           zero_ShadowConfiguration = (c, None)).
Proof.
  split.
  - intros [b h]. reflexivity.
  - exact decode_own_ShadowConfiguration.
Qed.

(** ** The further properties at concrete inputs *)

Lemma execution_failure_witness :
  exists v,
    fst (run (perform unreachable_client TypeByExtension_table Background
                op_GetMasterState) fresh_connector)
    = Returns (mkReply v None (Some (errors_New "connection refused")))
    /\ nil_value v.
Proof.
  apply execution_failure_is_propagated.
  vm_compute. apply Exists_cons_tl, Exists_cons_hd. split; reflexivity.
Defined.

Lemma one_round_trip_witness :
  single_round_trip Background
    (journal
       (snd (run (perform echo_client TypeByExtension_table Background
                    (op_RestoreBackup "secret" (Some backup_dir)))
               fresh_connector)))
  /\ exists password file,
      op_RestoreBackup "secret" (Some backup_dir)
      = op_RestoreBackup password file.
Proof.
  destruct (operations_make_one_round_trip Connector echo_client
              TypeByExtension_table Background
              (op_RestoreBackup "secret" (Some backup_dir)) fresh_connector)
    as [Htrip Hnone].
  split; [exact Htrip|].
  apply Hnone. reflexivity.
Defined.

Lemma no_status_check_witness :
  exists v,
    fst (run (perform
                (answering_client 500
                   (render (JObject [("version", JString "2.13.0")])))
                TypeByExtension_table Background op_GetVersion)
           fresh_connector)
    = Returns
        (mkReply v
           (Some (mkResponse 500
                    (render (JObject [("version", JString "2.13.0")]))))
           None)
    /\ present_value v.
Proof.
  apply other_operations_check_no_status.
  - reflexivity.
  - vm_compute. apply Exists_cons_tl, Exists_cons_hd. reflexivity.
Defined.

Lemma panic_witness :
  Forall
    (fun o =>
       fst (run (perform mute_client TypeByExtension_table Background o) tt)
       = Panics)
    checking_operations.
Proof.
  unfold checking_operations.
  repeat (apply Forall_cons;
          [ cbv beta;
            match goal with
            | |- fst (run (perform ?c ?T ?x ?o) ?w) = Panics =>
                refine (proj2 (nil_response_panics unit c T x o w eq_refl)
                          _ _ _)
            end;
            [ repeat split; reflexivity
            | intros k ctx req v w; reflexivity
            | first [ exact I
                    | exists backup_zip, (mkFileInfo false 5);
                      repeat split; reflexivity ] ]
          | ]).
  apply Forall_nil.
Defined.

Lemma stat_failure_witness :
  run (RestoreBackup echo_client TypeByExtension_table Background "secret"
         None) fresh_connector
  = (Returns (None, Some os_ErrInvalid), mkSession fresh_connector [])
  /\ run (RestoreBackup echo_client TypeByExtension_table Background "secret"
            (Some stale_file)) fresh_connector
     = (Returns (None, Some (errors_New "stale NFS file handle")),
        mkSession fresh_connector []).
Proof.
  split; apply RestoreBackup_stat_failure; reflexivity.
Defined.

Lemma default_builders_witness :
  Forall (fun ev => is_NewShadowRequest ev = false)
    (journal
       (snd (run (perform (answering_client 204 "") TypeByExtension_table
                    Background (op_RestoreBackup "secret" (Some backup_zip)))
               fresh_connector)))
  /\ exists password file,
      op_RestoreBackup "secret" (Some backup_zip)
      = op_RestoreBackup password file.
Proof.
  destruct (default_operations_use_default_builders Connector
              (answering_client 204 "") TypeByExtension_table Background
              (op_RestoreBackup "secret" (Some backup_zip)) fresh_connector
              eq_refl)
    as [Hshadow [Hupload _]].
  split; [exact Hshadow|].
  apply Hupload.
  vm_compute. apply Exists_cons_hd. reflexivity.
Defined.

Lemma refused_status_witness :
  StatusCode (mkResponse 404 "Not Found") = StatusCode (mkResponse 404 "").
Proof.
  refine (refused_status_is_told_by_the_error Connector Connector
            (answering_client 404 "Not Found") (answering_client 404 "")
            TypeByExtension_table TypeByExtension_table
            Background (WithCancel Background) op_ResetMaster
            fresh_connector fresh_connector
            (mkResponse 404 "Not Found") (mkResponse 404 "")
            (mkReply no_value (Some (mkResponse 404 "Not Found"))
               (Some (errors_New "master reset failed with status code 404")))
            (mkReply no_value (Some (mkResponse 404 ""))
               (Some (errors_New "master reset failed with status code 404")))
            (errors_New "master reset failed with status code 404")
            (errors_New "master reset failed with status code 404")
            _ _ _ _ _ _ _ _ _ _).
  - reflexivity.
  - vm_compute. apply Exists_cons_tl, Exists_cons_hd. reflexivity.
  - vm_compute. apply Exists_cons_tl, Exists_cons_hd. reflexivity.
  - discriminate.
  - discriminate.
  - reflexivity.
  - reflexivity.
  - reflexivity.
  - reflexivity.
  - reflexivity.
Defined.

Lemma shadow_words_witness :
  fst (run (ChangeShadowState (answering_client 403 "Forbidden") Background
              "CONNECT" "admin" "secret") fresh_connector)
  = Returns
      (Some (mkResponse 403 "Forbidden"),
       Some (errors_New "shadow reset failed with status code 403"))
  /\ fst (run (ResetShadow (answering_client 403 "") Background)
            fresh_connector)
     = Returns
         (Some (mkResponse 403 ""),
          Some (errors_New "shadow reset failed with status code 403")).
Proof.
  apply (ChangeShadowState_error_is_that_of_ResetShadow Connector Connector
           (answering_client 403 "Forbidden") (answering_client 403 "")
           Background Background "CONNECT" "admin" "secret"
           fresh_connector fresh_connector
           (mkResponse 403 "Forbidden") (mkResponse 403 "")).
  - vm_compute. apply Exists_cons_tl, Exists_cons_hd. reflexivity.
  - vm_compute. apply Exists_cons_tl, Exists_cons_hd. reflexivity.
  - discriminate.
  - reflexivity.
Defined.

Lemma endpoint_witness :
  endpoint
    (called_NewRequest "PUT" "api/v1/configuration/connector"
       (body_Description "edge") None
       (Some (errors_New "malformed path api/v1/configuration/connector")))
  = endpoint
      (called_NewRequest "PUT" "api/v1/configuration/connector"
         (body_Description "core")
         (Some (mkRequest "PUT" "api/v1/configuration/connector" to_default
                  "" 0 "")) None).
Proof.
  apply (endpoint_is_fixed Connector unit refusing_client mute_client
           TypeByExtension_table TypeByExtension_table
           Background Background
           (op_SetDescription "edge") (op_SetDescription "core")
           fresh_connector tt).
  - reflexivity.
  - vm_compute. left. reflexivity.
  - vm_compute. left. reflexivity.
  - reflexivity.
  - reflexivity.
Defined.

Lemma small_numbers_are_ints : is_int 30 /\ is_int 60 /\ is_int 5000.
Proof. unfold is_int. repeat split; discriminate. Defined.

Lemma SetShadowConfiguration_witness :
  exists body doc req err rest,
    journal
      (snd (run (SetShadowConfiguration mute_client Background
                   "master.example.org" "8443" "shadow.example.org"
                   30 60 5000 5000) tt))
    = called_NewShadowRequest "PUT"
        "api/v1/configuration/connector/ha/shadow/config" body req err
      :: rest
    /\ json_of_Body body = Some doc
    /\ set_struct assign_ShadowConfiguration doc zero_ShadowConfiguration
       = (mkShadowConfiguration "master.example.org" "8443" 30 60
            "shadow.example.org" 5000 5000 "" "", None).
Proof.
  apply SetShadowConfiguration_sends_its_arguments;
    apply small_numbers_are_ints.
Defined.

Lemma configurations_round_trip_witness :
  set_struct assign_ShadowConfiguration
    (json_of_ShadowConfiguration
       (mkShadowConfiguration "master.example.org" "8443" 30 60
          "shadow.example.org" 5000 5000 "/self" "/state"))
    zero_ShadowConfiguration
  = (mkShadowConfiguration "master.example.org" "8443" 30 60
       "shadow.example.org" 5000 5000 "/self" "/state", None).
Proof.
  apply (proj2 configurations_round_trip
           (mkShadowConfiguration "master.example.org" "8443" 30 60
              "shadow.example.org" 5000 5000 "/self" "/state"));
    apply small_numbers_are_ints.
Defined.
